(** * Wikipedia geoprovenance analyser: a shallow embedding

    The development follows [src/wikipedia_geoprovenance.py].  Python
    strings are modelled as [string], one [ascii] per character, read as
    the code points below 256; lists are [list]; the insertion-ordered
    [dict] is an association list.  Third-party calls ([urlparse],
    [tldextract.extract], the HTTP reply, the clock) are parameters of the
    functions that use them; executable instances are given at the end to
    run the program on concrete inputs. *)

From Stdlib Require Import String Ascii List Bool Arith PeanoNat Lia Permutation Sorted.
Import ListNotations.
Open Scope string_scope.
Open Scope nat_scope.
Open Scope list_scope.

(** ** The Python string operations the program uses *)

Module Py.

Definition code (c : ascii) : nat := nat_of_ascii c.

(** [str.isspace] on one character, which is also the class [\s] of [re]
    for [str] patterns: TAB..CR, FS..US, SPACE, NEL and NBSP. *)
Definition isspace (c : ascii) : bool :=
  let n := code c in
  ((9 <=? n) && (n <=? 13)) || ((28 <=? n) && (n <=? 32))
  || (n =? 133) || (n =? 160).

(** [str.lower] on one character: A-Z and the Latin-1 capitals. *)
Definition lower_char (c : ascii) : ascii :=
  let n := code c in
  if ((65 <=? n) && (n <=? 90))
     || ((192 <=? n) && (n <=? 222) && negb (n =? 215))
  then ascii_of_nat (n + 32) else c.

Fixpoint lower (s : string) : string :=
  match s with
  | EmptyString => EmptyString
  | String c s' => String (lower_char c) (lower s')
  end.

Fixpoint mem (c : ascii) (chars : string) : bool :=
  match chars with
  | EmptyString => false
  | String d chars' => Ascii.eqb c d || mem c chars'
  end.

Fixpoint lstrip_by (p : ascii -> bool) (s : string) : string :=
  match s with
  | EmptyString => EmptyString
  | String c s' => if p c then lstrip_by p s' else s
  end.

Fixpoint rstrip_by (p : ascii -> bool) (s : string) : string :=
  match s with
  | EmptyString => EmptyString
  | String c s' =>
      match rstrip_by p s' with
      | EmptyString => if p c then EmptyString else String c EmptyString
      | r => String c r
      end
  end.

(** [s.strip()] *)
Definition strip (s : string) : string :=
  rstrip_by isspace (lstrip_by isspace s).

(** [s.rstrip(chars)] *)
Definition rstrip (chars s : string) : string :=
  rstrip_by (fun c => mem c chars) s.

(** [s.startswith(p)] *)
Fixpoint startswith (p s : string) : bool :=
  match p, s with
  | EmptyString, _ => true
  | String a p', String b s' => Ascii.eqb a b && startswith p' s'
  | String _ _, EmptyString => false
  end.

(** [needle in hay] *)
Fixpoint contains (needle hay : string) : bool :=
  startswith needle hay
  || match hay with
     | EmptyString => false
     | String _ hay' => contains needle hay'
     end.

Fixpoint drop (n : nat) (s : string) : string :=
  match n, s with
  | O, _ => s
  | S n', String _ s' => drop n' s'
  | S _, EmptyString => EmptyString
  end.

Fixpoint take (n : nat) (s : string) : string :=
  match n, s with
  | S n', String c s' => String c (take n' s')
  | _, _ => EmptyString
  end.

(** Length of the longest prefix whose characters all satisfy [p]. *)
Fixpoint run (p : ascii -> bool) (s : string) : nat :=
  match s with
  | String c s' => if p c then S (run p s') else 0
  | EmptyString => 0
  end.

(** [s.split(sep)] for a one-character separator. *)
Fixpoint split (sep : ascii) (s : string) : list string :=
  match s with
  | EmptyString => [EmptyString]
  | String c s' =>
      if Ascii.eqb c sep then EmptyString :: split sep s'
      else match split sep s' with
           | w :: ws => String c w :: ws
           | [] => [String c EmptyString]
           end
  end.

(** [sep.join(parts)] *)
Fixpoint join (sep : string) (parts : list string) : string :=
  match parts with
  | [] => EmptyString
  | [w] => w
  | w :: ws => (w ++ sep ++ join sep ws)%string
  end.

(** [d.get(k)] on an insertion-ordered dict. *)
Fixpoint get {V : Type} (k : string) (d : list (string * V)) : option V :=
  match d with
  | [] => None
  | (k', v) :: d' => if String.eqb k k' then Some v else get k d'
  end.

Definition keys {V : Type} (d : list (string * V)) : list string :=
  map fst d.

(** [k in d] *)
Definition has_key {V : Type} (k : string) (d : list (string * V)) : bool :=
  existsb (String.eqb k) (keys d).

End Py.

(** ** TLD country map *)

Definition country_tlds : list (string * string) :=
  [ ("uk", "United Kingdom"); ("us", "United States"); ("de", "Germany");
    ("fr", "France"); ("jp", "Japan"); ("ca", "Canada"); ("au", "Australia");
    ("ch", "Switzerland"); ("cn", "China"); ("es", "Spain"); ("it", "Italy");
    ("nl", "Netherlands"); ("se", "Sweden"); ("no", "Norway"); ("ru", "Russia");
    ("br", "Brazil"); ("in", "India"); ("kr", "South Korea"); ("pl", "Poland") ].

Definition _get_country_from_tld (tld : string) : option string :=
  Py.get (Py.lower tld) country_tlds.

(** ** Exceptions

    A computation that may raise returns [option]; [None] is a raised
    exception. *)

Definition bind {A B : Type} (x : option A) (f : A -> option B) : option B :=
  match x with
  | Some a => f a
  | None => None
  end.

Notation "x <- e ;; k" := (bind e (fun x => k))
  (at level 61, e at next level, right associativity).

(** ** Regular expressions

    The fragment of [re] that the two URL patterns use: a sequence of
    character classes, each taken once or under a greedy [?], [*] or [+],
    matched with backtracking, and at most one capture group. *)

Module Re.

Inductive quant := One | Opt | Star | Plus.

Record item := Item { cls : ascii -> bool; q : quant; grouped : bool }.

Record pattern := Pattern { source : string; items : list item }.

Record rmatch := Match { group0 : string; group1 : option string }.

Definition lo (k : quant) : nat :=
  match k with
  | One | Plus => 1
  | Opt | Star => 0
  end.

Definition hi (k : quant) (avail : nat) : nat :=
  match k with
  | One | Opt => Nat.min 1 avail
  | Star | Plus => avail
  end.

(** The number of characters each item takes in the first successful
    match at the head of [s]: an item first takes as many characters as
    it can and gives them back one by one while the rest fails. *)
Fixpoint match_here (re : list item) (s : string) : option (list nat) :=
  match re with
  | [] => Some []
  | it :: re' =>
      let fix try (n : nat) : option (list nat) :=
        if n <? lo (q it) then None
        else match match_here re' (Py.drop n s) with
             | Some ns => Some (n :: ns)
             | None => match n with
                       | O => None
                       | S n' => try n'
                       end
             end in
      try (hi (q it) (Py.run (cls it) s))
  end.

(** Offset and length of group 1 from the items' lengths. *)
Fixpoint group_span (re : list item) (ns : list nat) (off : nat)
  : option (nat * nat) :=
  match re, ns with
  | it :: re', n :: ns' =>
      if grouped it then
        match group_span re' ns' (off + n) with
        | Some (o, l) => Some (off, n + l)
        | None => Some (off, n)
        end
      else group_span re' ns' (off + n)
  | _, _ => None
  end.

Definition match_at (p : pattern) (s : string) : option (nat * rmatch) :=
  match match_here (items p) s with
  | None => None
  | Some ns =>
      let total := list_sum ns in
      let g1 := match group_span (items p) ns 0 with
                | Some (o, l) => Some (Py.take l (Py.drop o s))
                | None => None
                end in
      Some (total, Match (Py.take total s) g1)
  end.

(** [re.finditer]: leftmost matches that do not overlap.  [skip] counts
    the characters still covered by the previous match. *)
Fixpoint finditer_from (p : pattern) (s : string) (skip : nat) {struct s}
  : list rmatch :=
  match skip with
  | S k =>
      match s with
      | EmptyString => []
      | String _ s' => finditer_from p s' k
      end
  | O =>
      match match_at p s with
      | Some (n, m) =>
          m :: match s with
               | EmptyString => []
               | String _ s' => finditer_from p s' (n - 1)
               end
      | None =>
          match s with
          | EmptyString => []
          | String _ s' => finditer_from p s' 0
          end
      end
  end.

Definition finditer (p : pattern) (s : string) : list rmatch :=
  finditer_from p s 0.

(** A literal character under [re.IGNORECASE]. *)
Definition lit (c : ascii) : ascii -> bool :=
  fun x => Ascii.eqb (Py.lower_char x) (Py.lower_char c).

(** [[^...]], with [\s] among the excluded characters when [ws]. *)
Definition none_of (ws : bool) (chars : string) : ascii -> bool :=
  fun x => negb ((ws && Py.isspace x) || Py.mem x chars).

End Re.

Definition newline : ascii := ascii_of_nat 10.

(** [r'url\s*=\s*([^|}\n]+)'] *)
Definition url_param_pattern : Re.pattern :=
  Re.Pattern "url\s*=\s*([^|}\n]+)"
    [ Re.Item (Re.lit "u") Re.One false;
      Re.Item (Re.lit "r") Re.One false;
      Re.Item (Re.lit "l") Re.One false;
      Re.Item Py.isspace Re.Star false;
      Re.Item (Re.lit "=") Re.One false;
      Re.Item Py.isspace Re.Star false;
      Re.Item (Re.none_of false (String "|" (String "}" (String newline ""))))
              Re.Plus true ].

(** [r'https?://[^\s|}]+'] *)
Definition direct_url_pattern : Re.pattern :=
  Re.Pattern "https?://[^\s|}]+"
    [ Re.Item (Re.lit "h") Re.One false;
      Re.Item (Re.lit "t") Re.One false;
      Re.Item (Re.lit "t") Re.One false;
      Re.Item (Re.lit "p") Re.One false;
      Re.Item (Re.lit "s") Re.Opt false;
      Re.Item (Re.lit ":") Re.One false;
      Re.Item (Re.lit "/") Re.One false;
      Re.Item (Re.lit "/") Re.One false;
      Re.Item (Re.none_of true "|}") Re.Plus false ].

Definition url_patterns : list Re.pattern :=
  [url_param_pattern; direct_url_pattern].

(** ** Records of the program *)

(** The two fields of [urlparse]'s result that the program reads. *)
Record ParseResult := { scheme : string; netloc : string }.

(** The result of [tldextract.extract]. *)
Record ExtractResult :=
  { ext_subdomain : string; ext_domain : string; ext_suffix : string }.

Module Citation.
Record t := Make { url : string; domain : string }.
End Citation.

Module DomainInfo.
Record t := Make
  { url : string;
    domain : string;
    subdomain : string;
    tld : string;
    country_from_tld : option string }.
End DomainInfo.

(** The values a report holds. *)
Inductive value :=
| Str (s : string)
| Int (n : nat)
| Counts (d : list (string * nat))
| Citations (l : list Citation.t).

Definition report := list (string * value).

(** What the MediaWiki API call comes to. *)
Inductive api_reply :=
| RequestFailed
| MissingParse
| MissingWikitext
| Wikitext (wikitext : string).

(** ** The dict operations of the deduplication step *)

Module Dict.

(** [d[k] = v]: a key already present keeps its place and takes the new
    value; a new key goes last. *)
Fixpoint set {V : Type} (k : string) (v : V) (d : list (string * V))
  : list (string * V) :=
  match d with
  | [] => [(k, v)]
  | (k', v') :: d' =>
      if String.eqb k k' then (k', v) :: d' else (k', v') :: set k v d'
  end.

(** [{key(c): c for c in l}] *)
Definition comprehension {V : Type} (key : V -> string) (l : list V)
  : list (string * V) :=
  fold_left (fun d c => set (key c) c d) l [].

Definition values {V : Type} (d : list (string * V)) : list V := map snd d.

End Dict.

(** ** The pandas operations of the report *)

Module Pd.

Fixpoint dropna {A : Type} (col : list (option A)) : list A :=
  match col with
  | [] => []
  | Some a :: col' => a :: dropna col'
  | None :: col' => dropna col'
  end.

(** [col.nunique()] *)
Definition nunique (col : list string) : nat :=
  List.length (nodup string_dec col).

Fixpoint incr (k : string) (d : list (string * nat)) : list (string * nat) :=
  match d with
  | [] => [(k, 1)]
  | (k', n) :: d' =>
      if String.eqb k k' then (k', S n) :: d' else (k', n) :: incr k d'
  end.

Definition tally (xs : list string) : list (string * nat) :=
  fold_left (fun d k => incr k d) xs [].

Fixpoint insert_desc (x : string * nat) (l : list (string * nat))
  : list (string * nat) :=
  match l with
  | [] => [x]
  | y :: l' => if snd y <=? snd x then x :: y :: l' else y :: insert_desc x l'
  end.

Definition sort_desc (l : list (string * nat)) : list (string * nat) :=
  fold_right insert_desc [] l.

(** [col.value_counts().to_dict()]: missing values are left out and the
    most frequent value comes first.  Among equal counts the order is
    pandas' own; here they keep the order of first appearance. *)
Definition value_counts (col : list (option string)) : list (string * nat) :=
  sort_desc (tally (dropna col)).

(** [col.notna().sum()] *)
Definition notna_sum {A : Type} (col : list (option A)) : nat :=
  List.length (dropna col).

End Pd.

(** ** The analyser *)

Section Analyzer.

(** [urllib.parse.urlparse]; [None] when it raises [ValueError]. *)
Variable urlparse : string -> option ParseResult.

(** [tldextract.extract]; [None] when it raises. *)
Variable tld_extract : string -> option ExtractResult.

Definition _is_valid_url (url : string) : bool :=
  match urlparse url with
  | Some parsed =>
      existsb (String.eqb (scheme parsed)) ["http"; "https"]
      && negb (String.eqb (netloc parsed) "")
      && negb (Py.contains "wikipedia.org" (Py.lower (netloc parsed)))
  | None => false
  end.

(** The text a match contributes, trimmed. *)
Definition candidate_url (pattern : Re.pattern) (m : Re.rmatch)
  : option string :=
  url <- (if Py.startswith "url" (Re.source pattern)
          then Re.group1 m else Some (Re.group0 m)) ;;
  Some (Py.rstrip "|}" (Py.strip url)).

Definition append_if_valid (citations : list Citation.t) (url : string)
  : option (list Citation.t) :=
  if _is_valid_url url then
    parsed <- urlparse url ;;
    Some (citations ++ [Citation.Make url (netloc parsed)])
  else Some citations.

Fixpoint for_matches (pattern : Re.pattern) (matches : list Re.rmatch)
  (citations : list Citation.t) : option (list Citation.t) :=
  match matches with
  | [] => Some citations
  | m :: matches' =>
      url <- candidate_url pattern m ;;
      citations' <- append_if_valid citations url ;;
      for_matches pattern matches' citations'
  end.

Fixpoint for_patterns (patterns : list Re.pattern) (wikitext : string)
  (citations : list Citation.t) : option (list Citation.t) :=
  match patterns with
  | [] => Some citations
  | pattern :: patterns' =>
      citations' <- for_matches pattern (Re.finditer pattern wikitext)
                      citations ;;
      for_patterns patterns' wikitext citations'
  end.

Definition _parse_citations_from_wikitext (wikitext : string)
  : option (list Citation.t) :=
  citations <- for_patterns url_patterns wikitext [] ;;
  Some (Dict.values (Dict.comprehension Citation.url citations)).

(** Every exception is caught and turned into the empty list. *)
Definition extract_citations_from_article (reply : api_reply)
  : list Citation.t :=
  match reply with
  | Wikitext wikitext =>
      match _parse_citations_from_wikitext wikitext with
      | Some citations => citations
      | None => []
      end
  | RequestFailed | MissingParse | MissingWikitext => []
  end.

Definition domain_info (url : string) (extracted : ExtractResult)
  : DomainInfo.t :=
  DomainInfo.Make url
    (ext_domain extracted ++ "." ++ ext_suffix extracted)%string
    (ext_subdomain extracted)
    (ext_suffix extracted)
    (_get_country_from_tld (ext_suffix extracted)).

Fixpoint analyze_loop (urls : list string) (results : list DomainInfo.t)
  : list DomainInfo.t :=
  match urls with
  | [] => results
  | url :: urls' =>
      match tld_extract url with
      | Some extracted =>
          analyze_loop urls' (results ++ [domain_info url extracted])
      | None => analyze_loop urls' results
      end
  end.

(** The rows of the returned data frame. *)
Definition analyze_url_geoprovenance (urls : list string)
  : list DomainInfo.t :=
  analyze_loop urls [].

Definition error_message : string :=
  "No citations found or article inaccessible".

(** The report of a non-empty citation list.  A frame built from no row
    has no column, and reading one raises [KeyError]. *)
Definition compile_report (article_title now : string)
  (citations : list Citation.t) (source_analysis : list DomainInfo.t)
  : option report :=
  match source_analysis with
  | [] => None
  | _ :: _ =>
      Some
        [ ("article_title", Str article_title);
          ("total_citations", Int (List.length citations));
          ("unique_domains",
            Int (Pd.nunique (map DomainInfo.domain source_analysis)));
          ("country_distribution",
            Counts (Pd.value_counts
                      (map DomainInfo.country_from_tld source_analysis)));
          ("tld_distribution",
            Counts (Pd.value_counts
                      (map (fun r => Some (DomainInfo.tld r))
                           source_analysis)));
          ("citations_with_country_tld",
            Int (Pd.notna_sum
                   (map DomainInfo.country_from_tld source_analysis)));
          ("citations", Citations citations);
          ("analysis_timestamp", Str now) ]
  end.

(** [reply] is what the request for the article comes to and [now] the
    clock's reading in ISO format. *)
Definition generate_geoprovenance_report (reply : api_reply) (now : string)
  (article_title lang : string) : option report :=
  let citations := extract_citations_from_article reply in
  match citations with
  | [] => Some [("error", Str error_message)]
  | _ :: _ =>
      let urls := map Citation.url citations in
      let source_analysis := analyze_url_geoprovenance urls in
      compile_report article_title now citations source_analysis
  end.

(** The test of the driver: ['error' not in report]. *)
Definition is_success (r : report) : bool :=
  negb (Py.has_key "error" r).

(** *** Notions used in the statements *)

Definition netloc_of (url : string) : string :=
  match urlparse url with
  | Some parsed => netloc parsed
  | None => EmptyString
  end.

Definition citation_of (url : string) : Citation.t :=
  Citation.Make url (netloc_of url).

(** The trimmed texts of a pattern's matches, in the order of the text. *)
Definition pattern_candidates (pattern : Re.pattern) (wikitext : string)
  : list string :=
  flat_map (fun m => match candidate_url pattern m with
                     | Some url => [url]
                     | None => []
                     end)
           (Re.finditer pattern wikitext).

(** All candidates in traversal order: first pattern first. *)
Definition candidates (wikitext : string) : list string :=
  flat_map (fun pattern => pattern_candidates pattern wikitext) url_patterns.

Definition decomposes (url : string) : bool :=
  match tld_extract url with
  | Some _ => true
  | None => false
  end.

Definition classify (url : string) : list DomainInfo.t :=
  match tld_extract url with
  | Some extracted => [domain_info url extracted]
  | None => []
  end.

End Analyzer.

(** The distinct strings of a list in the order of their first
    occurrence. *)
Fixpoint keep_first (l : list string) : list string :=
  match l with
  | [] => []
  | x :: l' => x :: filter (fun y => negb (String.eqb y x)) (keep_first l')
  end.

(** Coalescing in which the first citation of a URL wins: it is kept, in
    its place, and every later citation of the same URL is dropped. *)
Fixpoint first_wins (cs : list Citation.t) : list Citation.t :=
  match cs with
  | [] => []
  | c :: cs' =>
      c :: filter (fun c' => negb (String.eqb (Citation.url c') (Citation.url c)))
                  (first_wins cs')
  end.

(** The last element of [l] whose key is [k]. *)
Definition last_with {V : Type} (key : V -> string) (k : string) (l : list V)
  : option V :=
  find (fun c => String.eqb (key c) k) (rev l).

(** ** Executable instances of the third-party calls

    The analyser above is parametric in [urlparse] and in
    [tldextract.extract].  The two modules below follow the libraries'
    algorithms on the inputs met here, so that the program can be run. *)

Module Urllib.

Definition is_ascii_alpha (c : ascii) : bool :=
  let n := Py.code c in
  ((65 <=? n) && (n <=? 90)) || ((97 <=? n) && (n <=? 122)).

Definition is_digit (c : ascii) : bool :=
  let n := Py.code c in (48 <=? n) && (n <=? 57).

Definition scheme_char (c : ascii) : bool :=
  is_ascii_alpha c || is_digit c || Py.mem c "+-.".

Definition c0_control_or_space (c : ascii) : bool := Py.code c <=? 32.

Definition unsafe (c : ascii) : bool :=
  let n := Py.code c in (n =? 9) || (n =? 10) || (n =? 13).

Fixpoint remove (p : ascii -> bool) (s : string) : string :=
  match s with
  | EmptyString => EmptyString
  | String c s' => if p c then remove p s' else String c (remove p s')
  end.

Fixpoint all (p : ascii -> bool) (s : string) : bool :=
  match s with
  | EmptyString => true
  | String c s' => p c && all p s'
  end.

(** [s.find(c)] *)
Fixpoint find (c : ascii) (s : string) : option nat :=
  match s with
  | EmptyString => None
  | String d s' =>
      if Ascii.eqb c d then Some 0
      else match find c s' with
           | Some i => Some (S i)
           | None => None
           end
  end.

Definition split_scheme (url : string) : string * string :=
  match find ":" url with
  | Some (S i) =>
      if (match url with
          | String c _ => is_ascii_alpha c
          | EmptyString => false
          end) && all scheme_char (Py.take (S i) url)
      then (Py.lower (Py.take (S i) url), Py.drop (S (S i)) url)
      else (EmptyString, url)
  | _ => (EmptyString, url)
  end.

(** [urlsplit]: leading control characters and spaces are stripped, tabs
    and line breaks removed, the scheme is lowercased, the network
    location runs from [//] to the next [/], [?] or [#], and a bracket
    without its partner raises [ValueError]. *)
Definition urlparse (url : string) : option ParseResult :=
  let url := remove unsafe (Py.lstrip_by c0_control_or_space url) in
  let (scheme, rest) := split_scheme url in
  if Py.startswith "//" rest then
    let after := Py.drop 2 rest in
    let netloc := Py.take (Py.run (fun c => negb (Py.mem c "/?#")) after)
                          after in
    if xorb (Py.mem "[" netloc) (Py.mem "]" netloc) then None
    else Some {| scheme := scheme; netloc := netloc |}
  else Some {| scheme := scheme; netloc := EmptyString |}.

End Urllib.

Module Tldextract.

(** [s.find(sub)] *)
Fixpoint find_sub (sub s : string) : option nat :=
  if Py.startswith sub s then Some 0
  else match s with
       | EmptyString => None
       | String _ s' =>
           match find_sub sub s' with
           | Some i => Some (S i)
           | None => None
           end
       end.

Definition schemeless_url (url : string) : string :=
  match find_sub "//" url with
  | Some 0 => Py.drop 2 url
  | Some (S (S i)) =>
      if Py.startswith ":" (Py.drop (S i) url)
         && Urllib.all Urllib.scheme_char (Py.take (S i) url)
      then Py.drop (S (S i) + 2) url
      else url
  | _ => url
  end.

Definition before (c : ascii) (s : string) : string :=
  Py.take (Py.run (fun x => negb (Ascii.eqb x c)) s) s.

(** [s.rpartition(c)[-1]] *)
Fixpoint after_last (c : ascii) (s : string) : string :=
  match s with
  | EmptyString => EmptyString
  | String d s' =>
      if Py.mem c s' then after_last c s'
      else if Ascii.eqb c d then s' else s
  end.

Definition lenient_netloc (url : string) : string :=
  let after_userinfo :=
    after_last "@" (before "#" (before "?" (before "/" (schemeless_url url)))) in
  Py.rstrip "." (Py.strip (before ":" after_userinfo)).

Definition value_of (label : string) : nat :=
  (fix go (acc : nat) (s : string) : nat :=
     match s with
     | EmptyString => acc
     | String c s' => go (10 * acc + (Py.code c - 48)) s'
     end) 0 label.

Definition looks_like_ip (labels : list string) : bool :=
  if List.length labels =? 4 then
    forallb (fun l => if negb (String.eqb l "") && Urllib.all Urllib.is_digit l
                         && (String.length l <=? 3)
                      then value_of l <=? 255 else false)
            labels
  else false.

(** Index of the first label of the longest suffix listed in [psl], or
    the number of labels when there is none. *)
Fixpoint suffix_index (psl : list string) (labels : list string) : nat :=
  match labels with
  | [] => 0
  | _ :: labels' =>
      if existsb (String.eqb (Py.lower (Py.join "." labels))) psl then 0
      else S (suffix_index psl labels')
  end.

Definition extract (psl : list string) (url : string) : ExtractResult :=
  let netloc := lenient_netloc url in
  let labels := Py.split "." netloc in
  let i := suffix_index psl labels in
  if (i =? List.length labels) && looks_like_ip labels then
    {| ext_subdomain := ""; ext_domain := netloc; ext_suffix := "" |}
  else
    {| ext_subdomain := if 2 <=? i then Py.join "." (firstn (i - 1) labels)
                        else "";
       ext_domain := if 1 <=? i then nth (i - 1) labels "" else "";
       ext_suffix := Py.join "." (skipn i labels) |}.

(** An excerpt of the public suffix list. *)
Definition psl_excerpt : list string :=
  [ "com"; "org"; "net"; "edu"; "gov"; "io";
    "uk"; "co.uk"; "org.uk"; "ac.uk"; "gov.uk";
    "us"; "de"; "fr"; "jp"; "co.jp"; "ca"; "au"; "com.au"; "ch"; "cn";
    "com.cn"; "es"; "it"; "nl"; "se"; "no"; "ru"; "br"; "com.br"; "in";
    "co.in"; "kr"; "co.kr"; "pl" ].

End Tldextract.

(** The two calls as the analyser takes them. *)
Definition std_urlparse : string -> option ParseResult := Urllib.urlparse.

Definition psl_extract : string -> option ExtractResult :=
  fun url => Some (Tldextract.extract Tldextract.psl_excerpt url).

(** An extractor that raises on one URL and works on the others. *)
Definition flaky_extract : string -> option ExtractResult :=
  fun url => if String.eqb url "https://example.com/a" then None
             else psl_extract url.

(** The keys of a successful report, in order. *)
Definition report_keys : list string :=
  [ "article_title"; "total_citations"; "unique_domains";
    "country_distribution"; "tld_distribution"; "citations_with_country_tld";
    "citations"; "analysis_timestamp" ].

(** The wikitext of the end-to-end scenario. *)
Definition sample_wikitext : string :=
  "<ref>{{cite web|url=https://www.bbc.co.uk/news/123|title=X}}</ref> See also https://en.wikipedia.org/wiki/Y".

(** A text with three external links: a generic domain, a German one and
    a host without public suffix. *)
Definition links_wikitext : string :=
  "[https://example.com/a A] [https://www.example.de/b B] [http://localhost:8080/c C]".

(** ** The driver

    The loop of the script over its articles.  A visit is an article
    title with what its request comes to and the clock's reading; a
    printed line is kept as the values it shows, and the text of a caught
    exception is left out. *)

Record visit := Visit
  { v_article : string; v_reply : api_reply; v_now : string }.

Inductive printed :=
| Header (article : string)
| CitationsLine (v : value)
| DomainsLine (v : value)
| TopCountries (top : list (string * nat))
| ErrorLine (article : string)
| Complete.

Section Driver.

Variable urlparse : string -> option ParseResult.
Variable tld_extract : string -> option ExtractResult.

(** [analyzer.generate_geoprovenance_report(article, lang='de')] *)
Definition visit_report (v : visit) : option report :=
  generate_geoprovenance_report urlparse tld_extract (v_reply v) (v_now v)
    (v_article v) "de".

(** The four lines of a summary; the flag tells that reading a key
    raised, after the lines printed so far. *)
Definition print_summary (article : string) (r : report)
  : list printed * bool :=
  match Py.get "total_citations" r with
  | None => ([Header article], true)
  | Some total =>
      match Py.get "unique_domains" r with
      | None => ([Header article; CitationsLine total], true)
      | Some unique =>
          match Py.get "country_distribution" r with
          | Some (Counts d) =>
              ([Header article; CitationsLine total; DomainsLine unique;
                TopCountries (firstn 3 d)], false)
          | _ => ([Header article; CitationsLine total; DomainsLine unique],
                  true)
          end
      end
  end.

Definition visit_step (v : visit) (state : list (string * report) * list printed)
  : list (string * report) * list printed :=
  let (results, out) := state in
  match visit_report v with
  | None => (results, out ++ [ErrorLine (v_article v)])
  | Some r =>
      let results' := Dict.set (v_article v) r results in
      if is_success r then
        let (lines, raised) := print_summary (v_article v) r in
        (results',
         out ++ lines ++ (if raised then [ErrorLine (v_article v)] else []))
      else (results', out)
  end.

Fixpoint main_loop (visits : list visit)
  (state : list (string * report) * list printed)
  : list (string * report) * list printed :=
  match visits with
  | [] => state
  | v :: visits' => main_loop visits' (visit_step v state)
  end.

(** The saved results and everything printed. *)
Definition main (visits : list visit)
  : list (string * report) * list printed :=
  let (results, out) := main_loop visits ([], []) in
  (results, out ++ [Complete]).

(** The last visit of [article] whose report was returned. *)
Definition last_report (article : string) (visits : list visit)
  : option report :=
  match find (fun v => String.eqb (v_article v) article
                       && match visit_report v with
                          | Some _ => true
                          | None => false
                          end)
             (rev visits) with
  | Some v => visit_report v
  | None => None
  end.

Definition returned (v : visit) : bool :=
  match visit_report v with
  | Some _ => true
  | None => false
  end.

End Driver.

(** ** Notions on texts and matches used in the statements *)

(** Every character of [s] satisfies [p]. *)
Fixpoint every (p : ascii -> bool) (s : string) : bool :=
  match s with
  | EmptyString => true
  | String c s' => p c && every p s'
  end.

(** The lengths [ns] cut the head of [s] into pieces, one per item, each
    made of characters of the item's class and long enough for its
    quantifier. *)
Fixpoint fits (re : list Re.item) (s : string) (ns : list nat) : Prop :=
  match re, ns with
  | [], [] => True
  | it :: re', n :: ns' =>
      n <= Py.run (Re.cls it) s /\ Re.lo (Re.q it) <= n
      /\ fits re' (Py.drop n s) ns'
  | _, _ => False
  end.

(** The deduplication step on its own. *)
Definition dedup (cs : list Citation.t) : list Citation.t :=
  Dict.values (Dict.comprehension Citation.url cs).

(** Neither [|] nor [}] nor a line feed. *)
Definition plain_char (c : ascii) : bool :=
  negb (Py.mem c (String "|" (String "}" (String newline "")))).

(** Neither white space nor [|] nor [}]. *)
Definition solid_char (c : ascii) : bool :=
  negb (Py.isspace c || Py.mem c "|}").

(** [d] lists the values present in [col], each once with the number of
    its occurrences, the most frequent first; so the first three entries
    are three most frequent values. *)
Definition frequency_table (col : list (option string))
  (d : list (string * nat)) : Prop :=
  StronglySorted (fun a b => snd b <= snd a) d
  /\ NoDup (Py.keys d)
  /\ (forall k n, In (k, n) d ->
                  1 <= n /\ n = count_occ string_dec (Pd.dropna col) k)
  /\ (forall k, In (Some k) col -> In k (Py.keys d))
  /\ (forall x y, In x (firstn 3 d) -> In y (skipn 3 d) -> snd y <= snd x).

(** A sample of visits: a page with links, a missing page, and the first
    page once more. *)
Definition sample_visits : list visit :=
  [ Visit "Links" (Wikitext links_wikitext) "2024-01-01T00:00:00";
    Visit "Nowhere" MissingParse "2024-01-01T00:00:01";
    Visit "BBC" (Wikitext sample_wikitext) "2024-01-01T00:00:02" ].

(** ** Lemmas on strings and dicts *)

Lemma lower_char_idem (c : ascii) : Py.lower_char (Py.lower_char c) = Py.lower_char c.
Proof. destruct c as [[] [] [] [] [] [] [] []]; reflexivity. Qed.

Lemma lower_idem (s : string) : Py.lower (Py.lower s) = Py.lower s.
Proof.
  induction s as [|c s IH]; simpl; [reflexivity|].
  now rewrite lower_char_idem, IH.
Qed.

Lemma get_not_key {V : Type} (k : string) (d : list (string * V)) :
  ~ In k (Py.keys d) -> Py.get k d = None.
Proof.
  induction d as [|[k' v] d IH]; simpl; intros H; [reflexivity|].
  destruct (String.eqb_spec k k') as [->|Hne].
  - exfalso. apply H. now left.
  - apply IH. intros Hin. apply H. now right.
Qed.

Lemma get_some_key {V : Type} (k : string) (d : list (string * V)) (v : V) :
  Py.get k d = Some v -> In (k, v) d.
Proof.
  induction d as [|[k' v'] d IH]; simpl; [discriminate|].
  destruct (String.eqb_spec k k') as [->|Hne].
  - intros [= ->]. now left.
  - intros H. right. now apply IH.
Qed.

Lemma country_tlds_keys_nodup : NoDup (Py.keys country_tlds).
Proof.
  unfold Py.keys, country_tlds; simpl.
  repeat (constructor; [simpl; intuition discriminate|]). constructor.
Qed.

(** C8.  The country lookup lowercases its argument before it consults
    the table, so it does not depend on the case of the suffix: "UK" and
    "uk" both give "United Kingdom".  The table has 19 entries with
    distinct keys, and every suffix whose lowercase form is not one of
    these keys, such as com, org and net, gives no country. *)
Theorem get_country_case_insensitive_total :
  (forall s, _get_country_from_tld (Py.lower s) = _get_country_from_tld s)
  /\ (forall s t, Py.lower s = Py.lower t ->
              _get_country_from_tld s = _get_country_from_tld t)
  /\ _get_country_from_tld "UK" = Some "United Kingdom"
  /\ _get_country_from_tld "uk" = Some "United Kingdom"
  /\ List.length country_tlds = 19
  /\ NoDup (Py.keys country_tlds)
  /\ (forall s, ~ In (Py.lower s) (Py.keys country_tlds) ->
            _get_country_from_tld s = None)
  /\ (forall s c, _get_country_from_tld s = Some c ->
              In (Py.lower s, c) country_tlds)
  /\ _get_country_from_tld "com" = None
  /\ _get_country_from_tld "org" = None
  /\ _get_country_from_tld "net" = None.
Proof.
  unfold _get_country_from_tld.
  split; [intros s; now rewrite lower_idem|].
  split; [intros s t E; now rewrite E|].
  do 3 (split; [reflexivity|]).
  split; [apply country_tlds_keys_nodup|].
  split; [intros s H; now apply get_not_key|].
  split; [intros s c H; now apply get_some_key|].
  repeat split.
Qed.


(** ** The deduplication step *)

Section DictLemmas.

Context {V : Type}.
Variable key : V -> string.

Lemma set_keys (k : string) (v : V) (d : list (string * V)) :
  Py.keys (Dict.set k v d)
  = if in_dec string_dec k (Py.keys d) then Py.keys d else Py.keys d ++ [k].
Proof.
  unfold Py.keys.
  induction d as [|[k' v'] d IH]; simpl; [reflexivity|].
  destruct (String.eqb_spec k k') as [->|Hne]; simpl.
  - destruct (string_dec k' k'); [reflexivity|congruence].
  - rewrite IH.
    destruct (string_dec k' k) as [->|Hne2]; [congruence|].
    destruct (in_dec string_dec k (map fst d)); reflexivity.
Qed.

Lemma set_get (k k' : string) (v : V) (d : list (string * V)) :
  Py.get k' (Dict.set k v d)
  = if String.eqb k' k then Some v else Py.get k' d.
Proof.
  induction d as [|[k0 v0] d IH]; simpl.
  - reflexivity.
  - destruct (String.eqb_spec k k0) as [->|Hne]; simpl.
    + destruct (String.eqb k' k0); reflexivity.
    + rewrite IH. destruct (String.eqb_spec k' k0) as [->|Hne'].
      * destruct (String.eqb_spec k0 k); [congruence|reflexivity].
      * reflexivity.
Qed.

Lemma set_in (k : string) (v : V) (d : list (string * V)) (e : string * V) :
  In e (Dict.set k v d) -> e = (k, v) \/ In e d.
Proof.
  induction d as [|[k0 v0] d IH]; simpl.
  - intros [<-|[]]. now left.
  - destruct (String.eqb_spec k k0) as [->|Hne]; simpl.
    + intros [<-|H]; auto.
    + intros [<-|H]; auto. destruct (IH H); auto.
Qed.

Lemma comprehension_snoc (l : list V) (c : V) :
  Dict.comprehension key (l ++ [c])
  = Dict.set (key c) c (Dict.comprehension key l).
Proof. unfold Dict.comprehension. now rewrite fold_left_app. Qed.

Lemma keep_first_in (x : string) (l : list string) :
  In x (keep_first l) <-> In x l.
Proof.
  induction l as [|y l IH]; simpl; [tauto|].
  rewrite filter_In, IH.
  destruct (String.eqb_spec x y) as [->|Hne]; simpl; intuition congruence.
Qed.

Lemma filter_snoc_out {A : Type} (f : A -> bool) (l : list A) (x : A) :
  filter f (l ++ [x]) = if f x then filter f l ++ [x] else filter f l.
Proof.
  rewrite filter_app. simpl. destruct (f x); [reflexivity|apply app_nil_r].
Qed.

Lemma keep_first_snoc (l : list string) (x : string) :
  keep_first (l ++ [x])
  = if in_dec string_dec x l then keep_first l else keep_first l ++ [x].
Proof.
  induction l as [|y l IH]; simpl; [reflexivity|].
  rewrite IH.
  destruct (string_dec y x) as [->|Hne].
  - destruct (in_dec string_dec x l); [reflexivity|].
    rewrite filter_snoc_out. now rewrite String.eqb_refl.
  - destruct (in_dec string_dec x l) as [Hin|Hout]; [reflexivity|].
    rewrite filter_snoc_out.
    destruct (String.eqb_spec x y); [congruence|reflexivity].
Qed.

Lemma keep_first_nodup (l : list string) : NoDup (keep_first l).
Proof.
  induction l as [|x l IH]; simpl; constructor.
  - rewrite filter_In. intros [_ H]. now rewrite String.eqb_refl in H.
  - now apply NoDup_filter.
Qed.

(** The keys of the dict are the distinct keys of the list, each at the
    place of its first occurrence. *)
Lemma comprehension_keys (l : list V) :
  Py.keys (Dict.comprehension key l) = keep_first (map key l).
Proof.
  induction l as [|c l IH] using rev_ind; [reflexivity|].
  rewrite comprehension_snoc, set_keys, map_app, IH. simpl.
  rewrite keep_first_snoc.
  destruct (in_dec string_dec (key c) (keep_first (map key l))) as [H|H];
    destruct (in_dec string_dec (key c) (map key l)) as [H'|H'];
    try reflexivity; exfalso; rewrite keep_first_in in H; tauto.
Qed.

(** The value under a key is the last element written under it. *)
Lemma comprehension_get (l : list V) (k : string) :
  Py.get k (Dict.comprehension key l) = last_with key k l.
Proof.
  unfold last_with.
  induction l as [|c l IH] using rev_ind; [reflexivity|].
  rewrite comprehension_snoc, set_get, rev_app_distr. simpl.
  rewrite (String.eqb_sym k). destruct (String.eqb (key c) k); auto.
Qed.

Lemma comprehension_in (l : list V) (k : string) (v : V) :
  In (k, v) (Dict.comprehension key l) -> In v l /\ key v = k.
Proof.
  induction l as [|c l IH] using rev_ind; [intros []|].
  rewrite comprehension_snoc. intros H.
  destruct (set_in _ _ _ _ H) as [[= -> ->]|H'].
  - split; [apply in_or_app; right; now left|reflexivity].
  - destruct (IH H'). split; [apply in_or_app; now left|assumption].
Qed.

Lemma nodup_keys_get (d : list (string * V)) (k : string) (v : V) :
  NoDup (Py.keys d) -> In (k, v) d -> Py.get k d = Some v.
Proof.
  induction d as [|[k0 v0] d IH]; simpl; [intros _ []|].
  intros Hnd [[= -> ->]|Hin].
  - now rewrite String.eqb_refl.
  - inversion Hnd as [|? ? Hout Hnd']; subst.
    destruct (String.eqb_spec k k0) as [->|Hne].
    + exfalso. apply Hout. unfold Py.keys.
      change k0 with (fst (k0, v)). now apply in_map.
    + now apply IH.
Qed.

End DictLemmas.

(** ** Matching *)

Lemma match_here_length (re : list Re.item) :
  forall s ns, Re.match_here re s = Some ns -> List.length ns = List.length re.
Proof.
  induction re as [|it re IH]; simpl; intros s ns.
  - now intros [= <-].
  - generalize (Re.hi (Re.q it) (Py.run (Re.cls it) s)). intros n.
    induction n as [|n IHn].
    + destruct (0 <? Re.lo (Re.q it)); [discriminate|].
      destruct (Re.match_here re (Py.drop 0 s)) eqn:E; [|discriminate].
      intros [= <-]. simpl. f_equal. eauto.
    + destruct (S n <? Re.lo (Re.q it)); [discriminate|].
      destruct (Re.match_here re (Py.drop (S n) s)) eqn:E.
      * intros [= <-]. simpl. f_equal. eauto.
      * exact IHn.
Qed.

Lemma group_span_some (re : list Re.item) :
  forall ns off,
    List.length ns = List.length re ->
    existsb Re.grouped re = true ->
    exists o l, Re.group_span re ns off = Some (o, l).
Proof.
  induction re as [|it re IH]; simpl; intros ns off Hlen Hex; [discriminate|].
  destruct ns as [|n ns]; [discriminate|]. injection Hlen as Hlen.
  destruct (Re.grouped it); simpl in Hex.
  - destruct (Re.group_span re ns (off + n)) as [[o l]|]; eauto.
  - now apply IH.
Qed.

Lemma finditer_from_in (p : Re.pattern) (m : Re.rmatch) :
  forall s k, In m (Re.finditer_from p s k) ->
              exists s' n, Re.match_at p s' = Some (n, m).
Proof.
  induction s as [|c s IH]; intros k; simpl.
  - destruct k; [|intros []].
    destruct (Re.match_at p "") as [[n m']|] eqn:E; [|intros []].
    intros [<-|[]]. eauto.
  - destruct k; [|apply IH].
    destruct (Re.match_at p (String c s)) as [[n m']|] eqn:E; [|apply IH].
    intros [<-|H]; [eauto|]. now apply IH in H.
Qed.

(** Group 1 takes part in every match of a pattern that has a group. *)
Lemma finditer_group1 (p : Re.pattern) (s : string) (m : Re.rmatch) :
  existsb Re.grouped (Re.items p) = true ->
  In m (Re.finditer p s) -> exists g, Re.group1 m = Some g.
Proof.
  intros Hg Hin. destruct (finditer_from_in _ _ _ _ Hin) as (s' & n & Hm).
  unfold Re.match_at in Hm.
  destruct (Re.match_here (Re.items p) s') as [ns|] eqn:E; [|discriminate].
  destruct (group_span_some _ ns 0 (match_here_length _ _ _ E) Hg)
    as (o & l & Hs).
  rewrite Hs in Hm. injection Hm as _ <-. simpl. eauto.
Qed.

(** ** Extraction *)

Section ExtractionLemmas.

Variable urlparse : string -> option ParseResult.

Local Abbreviation valid := (_is_valid_url urlparse).
Local Abbreviation cite := (citation_of urlparse).

Lemma valid_parses (url : string) :
  valid url = true -> exists parsed, urlparse url = Some parsed.
Proof.
  unfold _is_valid_url. destruct (urlparse url); [eauto|discriminate].
Qed.

Lemma append_if_valid_eq (citations : list Citation.t) (url : string) :
  append_if_valid urlparse citations url
  = Some (citations ++ map cite (filter valid [url])).
Proof.
  unfold append_if_valid. cbn [filter].
  destruct (valid url) eqn:Hv; [|now rewrite app_nil_r].
  destruct (valid_parses _ Hv) as [parsed Hp].
  unfold citation_of, netloc_of. simpl. now rewrite Hp.
Qed.

Lemma candidate_url_total (p : Re.pattern) (s : string) (m : Re.rmatch) :
  In p url_patterns -> In m (Re.finditer p s) ->
  exists url, candidate_url p m = Some url.
Proof.
  intros [<-|[<-|[]]] Hin; unfold candidate_url; simpl.
  - destruct (finditer_group1 url_param_pattern s m eq_refl Hin) as [g ->].
    simpl. eauto.
  - eauto.
Qed.

Lemma for_matches_eq (p : Re.pattern) (ms : list Re.rmatch) :
  (forall m, In m ms -> exists url, candidate_url p m = Some url) ->
  forall citations,
    for_matches urlparse p ms citations
    = Some (citations
            ++ map cite
                 (filter valid
                    (flat_map (fun m => match candidate_url p m with
                                        | Some url => [url]
                                        | None => []
                                        end) ms))).
Proof.
  induction ms as [|m ms IH]; intros Hall citations; simpl.
  - now rewrite app_nil_r.
  - destruct (Hall m (or_introl eq_refl)) as [url Hu]. rewrite Hu. simpl.
    rewrite append_if_valid_eq. simpl.
    rewrite IH by (intros; apply Hall; now right).
    f_equal. rewrite <- app_assoc. f_equal.
    destruct (valid url); reflexivity.
Qed.

Lemma for_patterns_eq (wikitext : string) (ps : list Re.pattern) :
  (forall p, In p ps -> In p url_patterns) ->
  forall citations,
    for_patterns urlparse ps wikitext citations
    = Some (citations
            ++ map cite
                 (filter valid
                    (flat_map (fun p => pattern_candidates p wikitext) ps))).
Proof.
  induction ps as [|p ps IH]; intros Hsub citations; simpl.
  - now rewrite app_nil_r.
  - rewrite for_matches_eq
      by (intros m Hm; eapply candidate_url_total; eauto; apply Hsub; now left).
    simpl. rewrite IH by (intros; apply Hsub; now right).
    f_equal. rewrite <- app_assoc. f_equal.
    unfold pattern_candidates at 2.
    now rewrite filter_app, map_app.
Qed.

(** The loops never raise; they collect the citations of the valid
    candidates in traversal order. *)
Lemma collected_citations (wikitext : string) :
  for_patterns urlparse url_patterns wikitext []
  = Some (map cite (filter valid (candidates wikitext))).
Proof. now rewrite for_patterns_eq. Qed.

Lemma parse_citations_eq (wikitext : string) :
  _parse_citations_from_wikitext urlparse wikitext
  = Some (Dict.values
            (Dict.comprehension Citation.url
               (map cite (filter valid (candidates wikitext))))).
Proof.
  unfold _parse_citations_from_wikitext. now rewrite collected_citations.
Qed.

Lemma map_snd_by_key {A : Type} (f : string -> A) (d : list (string * A)) :
  (forall k v, In (k, v) d -> v = f k) -> map snd d = map f (Py.keys d).
Proof.
  unfold Py.keys. induction d as [|[k v] d IH]; intros H; simpl; [reflexivity|].
  rewrite (H k v) by now left. f_equal. apply IH. intros; apply H. now right.
Qed.

(** On citations built from their URL, the coalescing keeps the record
    of each distinct URL at the place of its first occurrence. *)
Lemma values_of_cited (urls : list string) :
  Dict.values (Dict.comprehension Citation.url (map cite urls))
  = map cite (keep_first urls).
Proof.
  unfold Dict.values. rewrite (map_snd_by_key cite).
  - rewrite comprehension_keys, map_map. simpl. now rewrite map_id.
  - intros k v Hin. apply comprehension_in in Hin as [Hv <-].
    apply in_map_iff in Hv as (u & <- & _). reflexivity.
Qed.

Lemma filter_map_comm {A B : Type} (f : A -> B) (g : B -> bool) (l : list A) :
  filter g (map f l) = map f (filter (fun a => g (f a)) l).
Proof.
  induction l as [|a l IH]; simpl; [reflexivity|].
  rewrite IH. destruct (g (f a)); reflexivity.
Qed.

Lemma first_wins_cited (urls : list string) :
  first_wins (map cite urls) = map cite (keep_first urls).
Proof.
  induction urls as [|u urls IH]; simpl; [reflexivity|].
  f_equal. rewrite IH. now rewrite filter_map_comm.
Qed.

Lemma first_wins_urls (cs : list Citation.t) :
  map Citation.url (first_wins cs) = keep_first (map Citation.url cs).
Proof.
  induction cs as [|c cs IH]; simpl; [reflexivity|].
  f_equal. rewrite <- IH. now rewrite filter_map_comm.
Qed.

End ExtractionLemmas.

Lemma rstrip_by_idem (p : ascii -> bool) (s : string) :
  Py.rstrip_by p (Py.rstrip_by p s) = Py.rstrip_by p s.
Proof.
  induction s as [|c s IH]; simpl; [reflexivity|].
  destruct (Py.rstrip_by p s) as [|d r] eqn:E.
  - destruct (p c) eqn:Hc; simpl; [reflexivity|now rewrite Hc].
  - simpl in *. now rewrite IH.
Qed.

Lemma lower_app (a b : string) :
  Py.lower (a ++ b) = (Py.lower a ++ Py.lower b)%string.
Proof. induction a as [|c a IH]; simpl; [reflexivity|now rewrite IH]. Qed.

Lemma startswith_app (n post : string) : Py.startswith n (n ++ post) = true.
Proof.
  induction n as [|c n IH]; simpl; [reflexivity|].
  now rewrite Ascii.eqb_refl, IH.
Qed.

Lemma contains_app (n pre post : string) :
  Py.contains n (pre ++ n ++ post) = true.
Proof.
  induction pre as [|c pre IH]; simpl.
  - pose proof (startswith_app n post) as H.
    destruct (n ++ post)%string; simpl; now rewrite H.
  - rewrite IH. apply orb_true_r.
Qed.

Lemma candidate_trimmed (p : Re.pattern) (m : Re.rmatch) (url : string) :
  candidate_url p m = Some url -> Py.rstrip "|}" url = url.
Proof.
  unfold candidate_url.
  destruct (if Py.startswith "url" (Re.source p) then Re.group1 m
            else Some (Re.group0 m)) as [g|]; simpl; [|discriminate].
  intros [= <-]. apply rstrip_by_idem.
Qed.

Lemma candidates_trimmed (wikitext url : string) :
  In url (candidates wikitext) -> Py.rstrip "|}" url = url.
Proof.
  unfold candidates, pattern_candidates. rewrite in_flat_map.
  intros (p & _ & H). rewrite in_flat_map in H. destruct H as (m & _ & H).
  destruct (candidate_url p m) as [u|] eqn:E; [|destruct H].
  destruct H as [<-|[]]. eapply candidate_trimmed; eauto.
Qed.

(** C4.  An extraction result holds at most one citation per URL, the URL
    being the matched text after trimming (it has no trailing [|] or [}]
    left), and it is what first-wins coalescing of the collected
    citations gives: for each URL the citation of its first match, at the
    place of that match. *)
Theorem extraction_one_citation_per_url_first_wins
  (urlparse : string -> option ParseResult) (wikitext : string) :
  exists citations result,
    for_patterns urlparse url_patterns wikitext [] = Some citations
    /\ _parse_citations_from_wikitext urlparse wikitext = Some result
    /\ NoDup (map Citation.url result)
    /\ (forall c, In c result ->
                  Py.rstrip "|}" (Citation.url c) = Citation.url c)
    /\ (forall c, In c result ->
                  find (fun c' => String.eqb (Citation.url c') (Citation.url c))
                       citations = Some c)
    /\ result = first_wins citations.
Proof.
  exists (map (citation_of urlparse)
            (filter (_is_valid_url urlparse) (candidates wikitext))).
  eexists. split; [apply collected_citations|].
  split; [apply parse_citations_eq|].
  rewrite values_of_cited, first_wins_cited.
  split; [|split; [|split; [|reflexivity]]].
  - rewrite map_map. simpl. rewrite map_id. apply keep_first_nodup.
  - intros c Hc. apply in_map_iff in Hc as (u & <- & Hu). simpl.
    rewrite keep_first_in in Hu. apply filter_In in Hu as [Hu _].
    eapply candidates_trimmed; eauto.
  - intros c Hc. apply in_map_iff in Hc as (u & <- & Hu).
    rewrite keep_first_in in Hu.
    destruct (find _ _) as [x|] eqn:E.
    + apply find_some in E as [Hx Hk]. apply String.eqb_eq in Hk.
      apply in_map_iff in Hx as (u' & <- & _). simpl in Hk. now subst u'.
    + apply (in_map (citation_of urlparse)) in Hu.
      apply (find_none _ _ E) in Hu. simpl in Hu.
      now rewrite String.eqb_refl in Hu.
Qed.

(** C5.  When the [url=] pattern and the direct pattern both give the same
    URL string, the result holds exactly one citation for it if the URL
    is valid (and none if validation refuses it).  The result is the value
    list of the dict built from the collected citations: the citation
    kept for a URL is the last one written under it, and the URLs come in
    the order of their first occurrence.  The dict step does so on any
    list of citations. *)
Theorem extraction_dedup_last_write_first_position
  (urlparse : string -> option ParseResult) (wikitext url : string) :
  In url (pattern_candidates url_param_pattern wikitext) ->
  In url (pattern_candidates direct_url_pattern wikitext) ->
  exists citations result,
    for_patterns urlparse url_patterns wikitext [] = Some citations
    /\ _parse_citations_from_wikitext urlparse wikitext = Some result
    /\ result = Dict.values (Dict.comprehension Citation.url citations)
    /\ count_occ string_dec (map Citation.url result) url
       = (if _is_valid_url urlparse url then 1 else 0)
    /\ (forall c, In c result ->
                  last_with Citation.url (Citation.url c) citations = Some c)
    /\ map Citation.url result = keep_first (map Citation.url citations)
    /\ (forall cs : list Citation.t,
          Py.keys (Dict.comprehension Citation.url cs)
          = keep_first (map Citation.url cs)
          /\ forall k, Py.get k (Dict.comprehension Citation.url cs)
                       = last_with Citation.url k cs).
Proof.
  intros H1 H2.
  set (citations := map (citation_of urlparse)
                      (filter (_is_valid_url urlparse) (candidates wikitext))).
  exists citations, (Dict.values (Dict.comprehension Citation.url citations)).
  assert (Hkeys : map Citation.url
                    (Dict.values (Dict.comprehension Citation.url citations))
                  = keep_first (map Citation.url citations)).
  { unfold citations. rewrite values_of_cited, map_map. simpl.
    rewrite map_map. simpl. now rewrite !map_id. }
  assert (Hin : In url (keep_first (map Citation.url citations))
                <-> _is_valid_url urlparse url = true).
  { rewrite keep_first_in. unfold citations. rewrite map_map. simpl.
    rewrite map_id, filter_In. split; [tauto|]. intros Hv. split; [|exact Hv].
    unfold candidates. simpl. apply in_or_app. now left. }
  split; [apply collected_citations|].
  split; [apply parse_citations_eq|].
  split; [reflexivity|].
  split; [|split; [|split; [exact Hkeys|]]].
  - rewrite Hkeys. destruct (_is_valid_url urlparse url) eqn:Hv.
    + apply NoDup_count_occ'; [apply keep_first_nodup|now apply Hin].
    + apply count_occ_not_In. intros H. apply Hin in H. discriminate.
  - intros c Hc. rewrite <- comprehension_get.
    unfold Dict.values in Hc. apply in_map_iff in Hc as ([k v] & <- & Hc).
    simpl. destruct (comprehension_in _ _ _ _ Hc) as [_ ->].
    apply nodup_keys_get; [|exact Hc].
    rewrite comprehension_keys. apply keep_first_nodup.
  - intros cs. split; [apply comprehension_keys|].
    intros k. apply comprehension_get.
Qed.

Lemma extraction_dedup_witness :
  In "https://www.bbc.co.uk/news/123"
     (pattern_candidates url_param_pattern sample_wikitext)
  /\ In "https://www.bbc.co.uk/news/123"
        (pattern_candidates direct_url_pattern sample_wikitext)
  /\ exists citations result,
      for_patterns std_urlparse url_patterns sample_wikitext [] = Some citations
      /\ _parse_citations_from_wikitext std_urlparse sample_wikitext
         = Some result
      /\ result = Dict.values (Dict.comprehension Citation.url citations)
      /\ count_occ string_dec (map Citation.url result)
           "https://www.bbc.co.uk/news/123"
         = (if _is_valid_url std_urlparse "https://www.bbc.co.uk/news/123"
            then 1 else 0)
      /\ (forall c, In c result ->
                    last_with Citation.url (Citation.url c) citations = Some c)
      /\ map Citation.url result = keep_first (map Citation.url citations)
      /\ (forall cs : list Citation.t,
            Py.keys (Dict.comprehension Citation.url cs)
            = keep_first (map Citation.url cs)
            /\ forall k, Py.get k (Dict.comprehension Citation.url cs)
                         = last_with Citation.url k cs).
Proof.
  assert (H1 : In "https://www.bbc.co.uk/news/123"
                 (pattern_candidates url_param_pattern sample_wikitext))
    by (vm_compute; left; reflexivity).
  assert (H2 : In "https://www.bbc.co.uk/news/123"
                 (pattern_candidates direct_url_pattern sample_wikitext))
    by (vm_compute; left; reflexivity).
  split; [exact H1|]. split; [exact H2|].
  exact (extraction_dedup_last_write_first_position std_urlparse
           sample_wikitext "https://www.bbc.co.uk/news/123" H1 H2).
Defined.

Lemma valid_url_spec (urlparse : string -> option ParseResult) (url : string) :
  _is_valid_url urlparse url = true
  <-> exists parsed,
        urlparse url = Some parsed
        /\ (scheme parsed = "http" \/ scheme parsed = "https")
        /\ netloc parsed <> ""
        /\ Py.contains "wikipedia.org" (Py.lower (netloc parsed)) = false.
Proof.
  unfold _is_valid_url. destruct (urlparse url) as [parsed|].
  - simpl. rewrite !andb_true_iff, orb_false_r, orb_true_iff.
    rewrite !negb_true_iff, !String.eqb_eq, String.eqb_neq. split.
    + intros [[Hs Hn] Hw]. exists parsed. tauto.
    + intros (parsed' & [= <-] & Hs & Hn & Hw). tauto.
  - split; [discriminate|]. intros (parsed & H & _). discriminate.
Qed.

Lemma parse_result_members (urlparse : string -> option ParseResult)
  (wikitext : string) (c : Citation.t) :
  In c (Dict.values
          (Dict.comprehension Citation.url
             (map (citation_of urlparse)
                (filter (_is_valid_url urlparse) (candidates wikitext)))))
  <-> exists url, In url (candidates wikitext)
                  /\ _is_valid_url urlparse url = true
                  /\ c = citation_of urlparse url.
Proof.
  rewrite values_of_cited, in_map_iff. split.
  - intros (u & <- & Hu). rewrite keep_first_in, filter_In in Hu.
    exists u. tauto.
  - intros (u & Hu & Hv & ->). exists u. split; [reflexivity|].
    rewrite keep_first_in, filter_In. tauto.
Qed.

(** C7.  A URL is accepted exactly when [urlparse] returns for it a scheme
    that is http or https, a network location that is not empty, and
    whose lowercase form does not contain "wikipedia.org".  A URL that
    [urlparse] rejects is refused without an exception, and so is one
    whose network location contains "wikipedia.org" in any mix of cases.
    Extraction returns the citations of exactly the accepted candidates,
    so no citation of the result has "wikipedia.org" in its network
    location. *)
Theorem valid_url_iff_external_http (urlparse : string -> option ParseResult) :
  (forall url,
      _is_valid_url urlparse url = true
      <-> exists parsed,
            urlparse url = Some parsed
            /\ (scheme parsed = "http" \/ scheme parsed = "https")
            /\ netloc parsed <> ""
            /\ Py.contains "wikipedia.org" (Py.lower (netloc parsed)) = false)
  /\ (forall url, urlparse url = None -> _is_valid_url urlparse url = false)
  /\ (forall url parsed pre mid post,
         urlparse url = Some parsed ->
         netloc parsed = (pre ++ mid ++ post)%string ->
         Py.lower mid = "wikipedia.org" ->
         _is_valid_url urlparse url = false)
  /\ (forall wikitext,
       exists result,
         _parse_citations_from_wikitext urlparse wikitext = Some result
         /\ (forall c,
                In c result
                <-> exists url, In url (candidates wikitext)
                                /\ _is_valid_url urlparse url = true
                                /\ c = citation_of urlparse url)
         /\ (forall c parsed,
                In c result -> urlparse (Citation.url c) = Some parsed ->
                Py.contains "wikipedia.org" (Py.lower (netloc parsed)) = false)).
Proof.
  split; [apply valid_url_spec|].
  split; [intros url H; unfold _is_valid_url; now rewrite H|].
  split.
  - intros url parsed pre mid post Hp Hn Hm. unfold _is_valid_url.
    rewrite Hp, Hn, !lower_app, Hm, contains_app. simpl.
    now rewrite andb_false_r.
  - intros wikitext. eexists. split; [apply parse_citations_eq|].
    split; [apply parse_result_members|].
    intros c parsed Hc Hp. apply parse_result_members in Hc as (u & _ & Hv & ->).
    simpl in Hp. apply valid_url_spec in Hv as (parsed' & Hp' & _ & _ & Hw).
    congruence.
Qed.

(** The end-to-end scenario: the citation template gives the BBC link
    once although both patterns match it, and the self-link is left out. *)
Example parse_sample_wikitext :
  _parse_citations_from_wikitext std_urlparse sample_wikitext
  = Some [Citation.Make "https://www.bbc.co.uk/news/123" "www.bbc.co.uk"].
Proof. vm_compute. reflexivity. Qed.

(** The second [\s*] gives a blank back when nothing else is left for the
    group. *)
Example url_param_gives_back :
  Re.finditer url_param_pattern "url= |"
  = [Re.Match "url= " (Some " ")].
Proof. vm_compute. reflexivity. Qed.

Example wikipedia_any_case_refused :
  _is_valid_url std_urlparse "HTTPS://En.Wikipedia.ORG/wiki/Y" = false.
Proof. vm_compute. reflexivity. Qed.

Example unparseable_refused :
  std_urlparse "http://[abc/" = None
  /\ _is_valid_url std_urlparse "http://[abc/" = false.
Proof. split; vm_compute; reflexivity. Qed.

Example no_link_no_citation :
  _parse_citations_from_wikitext std_urlparse "A text without any link." = Some []
  /\ extract_citations_from_article std_urlparse
       (Wikitext "A text without any link.") = [].
Proof. split; vm_compute; reflexivity. Qed.

(** ** Counting *)

Lemma dropna_length {A : Type} (col : list (option A)) :
  List.length (Pd.dropna col) <= List.length col.
Proof. induction col as [|[a|] col IH]; simpl; lia. Qed.

Lemma dropna_in {A : Type} (col : list (option A)) (a : A) :
  In a (Pd.dropna col) <-> In (Some a) col.
Proof.
  induction col as [|[b|] col IH]; simpl; [tauto| |].
  - rewrite IH. split; intros [H|H]; auto; left; congruence.
  - rewrite IH. split; [auto|]. intros [H|H]; [discriminate|assumption].
Qed.

Lemma dropna_some {A : Type} (l : list A) : Pd.dropna (map Some l) = l.
Proof. induction l as [|a l IH]; simpl; [reflexivity|now rewrite IH]. Qed.

Lemma incr_sum (k : string) (d : list (string * nat)) :
  list_sum (map snd (Pd.incr k d)) = S (list_sum (map snd d)).
Proof.
  induction d as [|[k' n] d IH]; simpl; [reflexivity|].
  destruct (String.eqb k k'); simpl; [reflexivity|]. rewrite IH. lia.
Qed.

Lemma incr_get (k k' : string) (d : list (string * nat)) :
  Py.get k' (Pd.incr k d)
  = if String.eqb k' k
    then Some (S (match Py.get k d with Some n => n | None => 0 end))
    else Py.get k' d.
Proof.
  induction d as [|[k0 n] d IH]; simpl.
  - reflexivity.
  - destruct (String.eqb_spec k k0) as [->|Hne]; simpl.
    + destruct (String.eqb k' k0); reflexivity.
    + rewrite IH. destruct (String.eqb_spec k' k0) as [->|Hne'].
      * destruct (String.eqb_spec k0 k); [congruence|reflexivity].
      * reflexivity.
Qed.

Lemma tally_snoc (xs : list string) (x : string) :
  Pd.tally (xs ++ [x]) = Pd.incr x (Pd.tally xs).
Proof. unfold Pd.tally. now rewrite fold_left_app. Qed.

Lemma tally_sum (xs : list string) :
  list_sum (map snd (Pd.tally xs)) = List.length xs.
Proof.
  induction xs as [|x xs IH] using rev_ind; [reflexivity|].
  rewrite tally_snoc, incr_sum, IH, length_app. simpl. lia.
Qed.

(** Each value is listed with the number of its occurrences. *)
Lemma tally_get (xs : list string) (k : string) :
  Py.get k (Pd.tally xs)
  = match count_occ string_dec xs k with
    | 0 => None
    | S n => Some (S n)
    end.
Proof.
  induction xs as [|x xs IH] using rev_ind; [reflexivity|].
  rewrite tally_snoc, incr_get, count_occ_app. simpl.
  destruct (String.eqb_spec k x) as [->|Hne].
  - rewrite IH. destruct (string_dec x x); [|congruence].
    destruct (count_occ string_dec xs x); simpl; f_equal; lia.
  - rewrite IH. destruct (string_dec x k); [congruence|].
    now rewrite Nat.add_0_r.
Qed.

Lemma tally_keys (xs : list string) (k : string) :
  In k (Py.keys (Pd.tally xs)) -> In k xs.
Proof.
  intros H. destruct (in_dec string_dec k xs) as [|Hout]; [assumption|].
  exfalso. apply (count_occ_not_In string_dec) in Hout.
  pose proof (tally_get xs k) as Hg. rewrite Hout in Hg.
  unfold Py.keys in H. apply in_map_iff in H as ([k' n] & <- & Hin).
  simpl in Hg. clear Hout. revert Hg Hin.
  induction (Pd.tally xs) as [|[k0 n0] d IH]; simpl; [tauto|].
  destruct (String.eqb_spec k' k0) as [->|Hne]; [discriminate|].
  intros Hg [[= -> ->]|Hin]; [congruence|auto].
Qed.

Lemma insert_desc_sum (x : string * nat) (l : list (string * nat)) :
  list_sum (map snd (Pd.insert_desc x l)) = snd x + list_sum (map snd l).
Proof.
  induction l as [|y l IH]; simpl; [reflexivity|].
  destruct (snd y <=? snd x); simpl; [reflexivity|]. rewrite IH. lia.
Qed.

Lemma insert_desc_in (x y : string * nat) (l : list (string * nat)) :
  In y (Pd.insert_desc x l) <-> y = x \/ In y l.
Proof.
  induction l as [|z l IH]; simpl; [intuition|].
  destruct (snd z <=? snd x); simpl; [intuition|]. rewrite IH. intuition.
Qed.

Lemma sort_desc_sum (l : list (string * nat)) :
  list_sum (map snd (Pd.sort_desc l)) = list_sum (map snd l).
Proof.
  induction l as [|x l IH]; simpl; [reflexivity|].
  rewrite insert_desc_sum, IH. reflexivity.
Qed.

Lemma sort_desc_in (y : string * nat) (l : list (string * nat)) :
  In y (Pd.sort_desc l) <-> In y l.
Proof.
  induction l as [|x l IH]; simpl; [tauto|].
  rewrite insert_desc_in, IH. intuition.
Qed.

(** The counts of a column add up to the number of its present values. *)
Lemma value_counts_sum (col : list (option string)) :
  list_sum (map snd (Pd.value_counts col)) = Pd.notna_sum col.
Proof. unfold Pd.value_counts, Pd.notna_sum. now rewrite sort_desc_sum, tally_sum. Qed.

Lemma value_counts_keys (col : list (option string)) (k : string) :
  In k (Py.keys (Pd.value_counts col)) -> In (Some k) col.
Proof.
  unfold Pd.value_counts, Py.keys. intros H.
  apply in_map_iff in H as ([k' n] & <- & Hin). rewrite sort_desc_in in Hin.
  apply dropna_in, tally_keys. unfold Py.keys.
  apply (in_map fst) in Hin. exact Hin.
Qed.

Lemma value_counts_entry (col : list (option string)) (k : string) :
  In (Some k) col ->
  In (k, count_occ string_dec (Pd.dropna col) k) (Pd.value_counts col)
  /\ 1 <= count_occ string_dec (Pd.dropna col) k.
Proof.
  intros H. apply dropna_in in H.
  apply (count_occ_In string_dec) in H.
  split; [|lia]. unfold Pd.value_counts. rewrite sort_desc_in. apply get_some_key.
  rewrite tally_get. destruct (count_occ string_dec (Pd.dropna col) k); [lia|reflexivity].
Qed.

(** ** Classification *)

Section ClassificationLemmas.

Variable tld_extract : string -> option ExtractResult.

Lemma analyze_loop_eq (urls : list string) :
  forall results,
    analyze_loop tld_extract urls results
    = results ++ flat_map (classify tld_extract) urls.
Proof.
  induction urls as [|url urls IH]; intros results; simpl.
  - now rewrite app_nil_r.
  - unfold classify at 1. destruct (tld_extract url) as [e|]; rewrite IH.
    + now rewrite <- app_assoc.
    + reflexivity.
Qed.

Lemma analyze_eq (urls : list string) :
  analyze_url_geoprovenance tld_extract urls
  = flat_map (classify tld_extract) urls.
Proof. unfold analyze_url_geoprovenance. now rewrite analyze_loop_eq. Qed.

Lemma classified_length (urls : list string) :
  List.length (flat_map (classify tld_extract) urls)
  = List.length (filter (decomposes tld_extract) urls).
Proof.
  induction urls as [|url urls IH]; simpl; [reflexivity|].
  rewrite length_app, IH. unfold classify, decomposes.
  destruct (tld_extract url); reflexivity.
Qed.

Lemma analyze_length_le (urls : list string) :
  List.length (analyze_url_geoprovenance tld_extract urls)
  <= List.length urls.
Proof. rewrite analyze_eq, classified_length. apply filter_length_le. Qed.

Lemma analyze_in (urls : list string) (row : DomainInfo.t) :
  In row (analyze_url_geoprovenance tld_extract urls)
  <-> exists url extracted,
        In url urls /\ tld_extract url = Some extracted
        /\ row = domain_info url extracted.
Proof.
  rewrite analyze_eq, in_flat_map. unfold classify. split.
  - intros (url & Hu & H). destruct (tld_extract url) as [e|] eqn:E; [|destruct H].
    destruct H as [<-|[]]. eauto.
  - intros (url & e & Hu & He & ->). exists url. rewrite He. split; [assumption|now left].
Qed.

End ClassificationLemmas.

Lemma classify_failure_dropped (tld_extract : string -> option ExtractResult)
  (urls : list string) (url : string) :
  tld_extract url = None ->
  ~ In url (map DomainInfo.url (analyze_url_geoprovenance tld_extract urls)).
Proof.
  intros Hf Hin. apply in_map_iff in Hin as (row & <- & Hrow).
  apply analyze_in in Hrow as (u & e & _ & He & ->). simpl in Hf. congruence.
Qed.

(** C3, as the code has it.  The classification loop never raises.  A URL
    whose decomposition succeeds gets one row; a URL whose decomposition
    raises is skipped and gets no row.  So the number of rows is the
    number of URLs that decompose: at most the number of URLs, and equal
    to it when every URL decomposes. *)
Theorem analyze_skips_failed_decompositions
  (tld_extract : string -> option ExtractResult) (urls : list string) :
  analyze_url_geoprovenance tld_extract urls
  = flat_map (classify tld_extract) urls
  /\ List.length (analyze_url_geoprovenance tld_extract urls)
     = List.length (filter (decomposes tld_extract) urls)
  /\ List.length (analyze_url_geoprovenance tld_extract urls)
     <= List.length urls
  /\ (forall url, tld_extract url = None ->
        ~ In url (map DomainInfo.url
                    (analyze_url_geoprovenance tld_extract urls)))
  /\ (forall url extracted,
        In url urls -> tld_extract url = Some extracted ->
        In (domain_info url extracted)
           (analyze_url_geoprovenance tld_extract urls))
  /\ ((forall url, In url urls -> decomposes tld_extract url = true) ->
      List.length (analyze_url_geoprovenance tld_extract urls)
      = List.length urls).
Proof.
  split; [apply analyze_eq|].
  split; [rewrite analyze_eq; apply classified_length|].
  split; [apply analyze_length_le|].
  split; [intros url; apply classify_failure_dropped|].
  split; [intros url e Hin He; apply analyze_in; eauto|].
  intros Hall. rewrite analyze_eq, classified_length. f_equal.
  apply forallb_filter_id, forallb_forall. exact Hall.
Qed.

(** C3, counterexample.  When the decomposition of one of three cited
    URLs raises, that URL has no row: the report still counts three
    citations while the suffix counts add up to two. *)
Lemma failed_decomposition_is_dropped :
  analyze_url_geoprovenance flaky_extract
    ["https://example.com/a"; "https://www.example.de/b"]
  = [DomainInfo.Make "https://www.example.de/b" "example.de" "www" "de"
       (Some "Germany")]
  /\ exists r,
      generate_geoprovenance_report std_urlparse flaky_extract
        (Wikitext links_wikitext) "2024-01-01T00:00:00" "Links" "en" = Some r
      /\ Py.get "total_citations" r = Some (Int 3)
      /\ Py.get "unique_domains" r = Some (Int 2)
      /\ Py.get "tld_distribution" r = Some (Counts [("de", 1); ("", 1)]).
Proof.
  split; [vm_compute; reflexivity|].
  eexists. split; [vm_compute; reflexivity|]. repeat split.
Qed.

(** ** Reports *)

Lemma unknown_not_listed (tld : string) : ~ In (tld, "unknown") country_tlds.
Proof.
  unfold country_tlds. simpl. intros H.
  repeat (destruct H as [H|H]; [discriminate|]). exact H.
Qed.

Section ReportLemmas.

Variable urlparse : string -> option ParseResult.
Variable tld_extract : string -> option ExtractResult.
Variables (reply : api_reply) (now article_title lang : string).

Local Abbreviation citations := (extract_citations_from_article urlparse reply).
Local Abbreviation rows :=
  (analyze_url_geoprovenance tld_extract (map Citation.url citations)).
Local Abbreviation generated :=
  (generate_geoprovenance_report urlparse tld_extract reply now
     article_title lang).

Lemma generate_empty :
  citations = [] -> generated = Some [("error", Str error_message)].
Proof. unfold generate_geoprovenance_report. now intros ->. Qed.

Lemma compile_fields (cs : list Citation.t) (rs : list DomainInfo.t)
  (r : report) :
  compile_report article_title now cs rs = Some r ->
  rs <> []
  /\ Py.keys r = report_keys
  /\ Py.get "total_citations" r = Some (Int (List.length cs))
  /\ Py.get "unique_domains" r
     = Some (Int (Pd.nunique (map DomainInfo.domain rs)))
  /\ Py.get "country_distribution" r
     = Some (Counts (Pd.value_counts (map DomainInfo.country_from_tld rs)))
  /\ Py.get "tld_distribution" r
     = Some (Counts (Pd.value_counts
                       (map (fun x => Some (DomainInfo.tld x)) rs)))
  /\ Py.get "citations_with_country_tld" r
     = Some (Int (Pd.notna_sum (map DomainInfo.country_from_tld rs))).
Proof.
  unfold compile_report. destruct rs as [|row rs']; [discriminate|].
  intros [= <-]. split; [discriminate|]. repeat split.
Qed.

Lemma generate_nonempty (r : report) :
  citations <> [] ->
  generated = Some r ->
  compile_report article_title now citations rows = Some r.
Proof.
  unfold generate_geoprovenance_report.
  destruct (extract_citations_from_article urlparse reply) eqn:E;
    [congruence|auto].
Qed.

Lemma generate_success (r : report) :
  generated = Some r -> is_success r = true ->
  citations <> [] /\ compile_report article_title now citations rows = Some r.
Proof.
  intros Hg Hs.
  destruct (extract_citations_from_article urlparse reply) eqn:E.
  - rewrite generate_empty in Hg by exact E. injection Hg as <-. discriminate.
  - assert (Hne : citations <> []) by (rewrite E; discriminate).
    split; [discriminate|]. rewrite <- E. now apply generate_nonempty.
Qed.

Lemma generate_error (r : report) :
  generated = Some r -> is_success r = false -> citations = [].
Proof.
  intros Hg Hs.
  destruct (extract_citations_from_article urlparse reply) eqn:E;
    [reflexivity|].
  assert (Hne : citations <> []) by (rewrite E; discriminate).
  apply generate_nonempty in Hg; [|exact Hne].
  apply compile_fields in Hg as (_ & Hk & _).
  unfold is_success, Py.has_key in Hs. rewrite Hk in Hs. discriminate.
Qed.

Lemma rows_le_citations : List.length rows <= List.length citations.
Proof.
  etransitivity; [apply analyze_length_le|]. now rewrite length_map.
Qed.

Lemma country_is_listed (country : string) :
  In (Some country) (map DomainInfo.country_from_tld rows) ->
  exists tld, In (tld, country) country_tlds.
Proof.
  intros H. apply in_map_iff in H as (row & Hc & Hrow).
  apply analyze_in in Hrow as (u & e & _ & _ & ->). simpl in Hc.
  apply get_some_key in Hc. eauto.
Qed.

Lemma with_country_le_citations :
  Pd.notna_sum (map DomainInfo.country_from_tld rows) <= List.length citations.
Proof.
  unfold Pd.notna_sum. etransitivity; [apply dropna_length|].
  rewrite length_map. apply rows_le_citations.
Qed.

Lemma no_unknown_bucket :
  ~ In "unknown"
      (Py.keys (Pd.value_counts (map DomainInfo.country_from_tld rows))).
Proof.
  intros H. apply value_counts_keys, country_is_listed in H as [tld H].
  exact (unknown_not_listed tld H).
Qed.

End ReportLemmas.

Lemma mem_lower_dot (s : string) :
  Py.mem "." s = true -> Py.mem "." (Py.lower s) = true.
Proof.
  induction s as [|c s IH]; [discriminate|]. cbn [Py.mem Py.lower].
  destruct (Ascii.eqb_spec "." c) as [<-|Hne]; [reflexivity|].
  cbn [orb]. intros H. rewrite IH by exact H. apply orb_true_r.
Qed.

Lemma dotted_suffix_no_country (suffix : string) :
  Py.mem "." suffix = true -> _get_country_from_tld suffix = None.
Proof.
  intros Hdot. apply mem_lower_dot in Hdot.
  apply get_not_key. unfold country_tlds, Py.keys. simpl. intros H.
  repeat (destruct H as [H|H]; [rewrite <- H in Hdot; discriminate|]).
  exact H.
Qed.

(** C1.  For the host news.bbc.co.uk the classification gives the domain
    "bbc.co.uk", the subdomain "news" and the suffix "co.uk", but no
    country: the table is consulted with the whole suffix "co.uk", not
    with its last label "uk", which would give "United Kingdom".  No
    suffix of several labels ever gets a country. *)
Theorem multi_label_suffix_gets_no_country :
  analyze_url_geoprovenance psl_extract ["https://news.bbc.co.uk/"]
  = [DomainInfo.Make "https://news.bbc.co.uk/" "bbc.co.uk" "news" "co.uk" None]
  /\ _get_country_from_tld "co.uk" = None
  /\ _get_country_from_tld "uk" = Some "United Kingdom"
  /\ (forall (extract : string -> option ExtractResult) url extracted,
        extract url = Some extracted ->
        Py.mem "." (ext_suffix extracted) = true ->
        analyze_url_geoprovenance extract [url]
        = [DomainInfo.Make url
             (ext_domain extracted ++ "." ++ ext_suffix extracted)%string
             (ext_subdomain extracted) (ext_suffix extracted) None]).
Proof.
  split; [vm_compute; reflexivity|]. do 2 (split; [reflexivity|]).
  intros extract url e He Hdot. rewrite analyze_eq. simpl. unfold classify.
  rewrite He. unfold domain_info. now rewrite dotted_suffix_no_country.
Qed.

(** C2, counterexample.  For an article without content the report is the
    mapping with the one key "error"; its message starts with a capital
    letter, and it shares no key with a successful report, so there is no
    field on which the two could be told apart by its value. *)
Lemma error_report_has_no_discriminant :
  generate_geoprovenance_report std_urlparse psl_extract MissingParse
    "2024-01-01T00:00:00" "X" "en"
  = Some [("error", Str "No citations found or article inaccessible")]
  /\ "No citations found or article inaccessible"
     <> "no citations found or article inaccessible"
  /\ exists ok,
      generate_geoprovenance_report std_urlparse psl_extract
        (Wikitext sample_wikitext) "2024-01-01T00:00:00" "X" "en" = Some ok
      /\ Py.keys ok = report_keys
      /\ forall k,
          Py.has_key k [("error", Str "No citations found or article inaccessible")]
          = true ->
          Py.has_key k ok = false.
Proof.
  split; [reflexivity|]. split; [discriminate|].
  eexists. split; [vm_compute; reflexivity|]. split; [reflexivity|].
  intros k. unfold Py.has_key at 1. simpl. rewrite orb_false_r.
  intros ->%String.eqb_eq. reflexivity.
Qed.

(** C2, as the code has it.  When no citation is extracted the report is
    the mapping with the single key "error" and the message "No citations
    found or article inaccessible".  Every report is a plain mapping; it
    has the key "error" exactly when no citation was extracted, and
    otherwise it has the eight keys of a successful report.  The presence
    of that key is what tells the two apart. *)
Theorem empty_citations_give_error_mapping
  (urlparse : string -> option ParseResult)
  (tld_extract : string -> option ExtractResult)
  (reply : api_reply) (now article_title lang : string) :
  extract_citations_from_article urlparse reply = [] ->
  generate_geoprovenance_report urlparse tld_extract reply now
    article_title lang
  = Some [("error", Str "No citations found or article inaccessible")]
  /\ is_success [("error", Str "No citations found or article inaccessible")]
     = false
  /\ (forall reply' now' title' lang' r,
        generate_geoprovenance_report urlparse tld_extract reply' now'
          title' lang' = Some r ->
        (is_success r = false
         <-> extract_citations_from_article urlparse reply' = [])
        /\ (is_success r = false -> Py.keys r = ["error"])
        /\ (is_success r = true -> Py.keys r = report_keys)).
Proof.
  intros Hempty. split; [now apply generate_empty|]. split; [reflexivity|].
  intros reply' now' title' lang' r Hg. split; [split|split].
  - intros Hs. eapply generate_error; eauto.
  - intros He. rewrite generate_empty in Hg by exact He. now injection Hg as <-.
  - intros Hs. pose proof (generate_error _ _ _ _ _ _ _ Hg Hs) as He.
    rewrite generate_empty in Hg by exact He. now injection Hg as <-.
  - intros Hs. destruct (generate_success _ _ _ _ _ _ _ Hg Hs) as [_ Hc].
    now apply compile_fields in Hc.
Qed.

Lemma empty_citations_witness :
  extract_citations_from_article std_urlparse MissingParse = []
  /\ generate_geoprovenance_report std_urlparse psl_extract MissingParse
       "2024-01-01T00:00:00" "X" "en"
     = Some [("error", Str "No citations found or article inaccessible")]
  /\ is_success [("error", Str "No citations found or article inaccessible")]
     = false
  /\ (forall reply' now' title' lang' r,
        generate_geoprovenance_report std_urlparse psl_extract reply' now'
          title' lang' = Some r ->
        (is_success r = false
         <-> extract_citations_from_article std_urlparse reply' = [])
        /\ (is_success r = false -> Py.keys r = ["error"])
        /\ (is_success r = true -> Py.keys r = report_keys)).
Proof.
  split; [reflexivity|].
  apply (empty_citations_give_error_mapping std_urlparse psl_extract MissingParse
           "2024-01-01T00:00:00" "X" "en").
  reflexivity.
Defined.

(** C6.  In a successful report the number of citations with a country is
    at most the number of citations.  The country counts have no
    "unknown" bucket and add up to at most the number of citations; were
    "unknown" a bucket, they would add up to exactly that number. *)
Theorem report_country_counts_bounded
  (urlparse : string -> option ParseResult)
  (tld_extract : string -> option ExtractResult)
  (reply : api_reply) (now article_title lang : string) (r : report) :
  generate_geoprovenance_report urlparse tld_extract reply now
    article_title lang = Some r ->
  is_success r = true ->
  exists total with_country distribution,
    Py.get "total_citations" r = Some (Int total)
    /\ Py.get "citations_with_country_tld" r = Some (Int with_country)
    /\ Py.get "country_distribution" r = Some (Counts distribution)
    /\ with_country <= total
    /\ (In "unknown" (Py.keys distribution) ->
        list_sum (map snd distribution) = total)
    /\ (~ In "unknown" (Py.keys distribution) ->
        list_sum (map snd distribution) <= total)
    /\ ~ In "unknown" (Py.keys distribution).
Proof.
  intros Hg Hs. destruct (generate_success _ _ _ _ _ _ _ Hg Hs) as [_ Hc].
  apply compile_fields in Hc as (_ & _ & Ht & _ & Hd & _ & Hw).
  do 3 eexists. split; [exact Ht|]. split; [exact Hw|]. split; [exact Hd|].
  pose proof (with_country_le_citations urlparse tld_extract reply) as Hle.
  pose proof (no_unknown_bucket urlparse tld_extract reply) as Hno.
  split; [exact Hle|]. split; [intros H; destruct (Hno H)|].
  split; [intros _; now rewrite value_counts_sum|exact Hno].
Qed.

Lemma report_country_counts_witness :
  exists r,
    generate_geoprovenance_report std_urlparse psl_extract
      (Wikitext links_wikitext) "2024-01-01T00:00:00" "Links" "en" = Some r
    /\ is_success r = true
    /\ exists total with_country distribution,
        Py.get "total_citations" r = Some (Int total)
        /\ Py.get "citations_with_country_tld" r = Some (Int with_country)
        /\ Py.get "country_distribution" r = Some (Counts distribution)
        /\ with_country <= total
        /\ (In "unknown" (Py.keys distribution) ->
            list_sum (map snd distribution) = total)
        /\ (~ In "unknown" (Py.keys distribution) ->
            list_sum (map snd distribution) <= total)
        /\ ~ In "unknown" (Py.keys distribution).
Proof.
  eexists. split; [vm_compute; reflexivity|]. split; [reflexivity|].
  apply (report_country_counts_bounded std_urlparse psl_extract
           (Wikitext links_wikitext) "2024-01-01T00:00:00" "Links" "en");
    vm_compute; reflexivity.
Defined.

(** C9.  In a successful report the country counts hold only countries of
    the table: a citation without country is in no bucket.  The counts
    add up to the number of citations with a country, which is at most
    the number of citations and can be smaller: three links of which one
    is German give 1 against 3. *)
Theorem country_distribution_omits_absent :
  (forall (urlparse : string -> option ParseResult)
          (tld_extract : string -> option ExtractResult)
          (reply : api_reply) (now article_title lang : string) (r : report),
      generate_geoprovenance_report urlparse tld_extract reply now
        article_title lang = Some r ->
      is_success r = true ->
      exists total with_country distribution,
        Py.get "total_citations" r = Some (Int total)
        /\ Py.get "citations_with_country_tld" r = Some (Int with_country)
        /\ Py.get "country_distribution" r = Some (Counts distribution)
        /\ list_sum (map snd distribution) = with_country
        /\ with_country <= total
        /\ ~ In "unknown" (Py.keys distribution)
        /\ (forall country, In country (Py.keys distribution) ->
              exists tld, In (tld, country) country_tlds))
  /\ exists r,
      generate_geoprovenance_report std_urlparse psl_extract
        (Wikitext links_wikitext) "2024-01-01T00:00:00" "Links" "en" = Some r
      /\ is_success r = true
      /\ Py.get "total_citations" r = Some (Int 3)
      /\ Py.get "citations_with_country_tld" r = Some (Int 1)
      /\ Py.get "country_distribution" r = Some (Counts [("Germany", 1)]).
Proof.
  split.
  - intros urlparse extract reply now title lang r Hg Hs.
    destruct (generate_success _ _ _ _ _ _ _ Hg Hs) as [_ Hc].
    apply compile_fields in Hc as (_ & _ & Ht & _ & Hd & _ & Hw).
    do 3 eexists. split; [exact Ht|]. split; [exact Hw|]. split; [exact Hd|].
    split; [apply value_counts_sum|].
    split; [apply with_country_le_citations|].
    split; [apply no_unknown_bucket|].
    intros country H. now apply value_counts_keys, country_is_listed in H.
  - eexists. split; [vm_compute; reflexivity|]. repeat split.
Qed.

Lemma nunique_pos (x : string) (col : list string) :
  In x col -> 1 <= Pd.nunique col.
Proof.
  intros H. unfold Pd.nunique. apply (nodup_In string_dec) in H.
  destruct (nodup string_dec col); [destruct H|simpl; lia].
Qed.

(** C10.  When the extractor finds no public suffix in the host of a
    cited URL, the URL is classified all the same: the domain field is
    the bare label followed by ".", the suffix is empty and there is no
    country.  In a successful report that domain is among the values
    [unique_domains] counts, and the suffix counts list the empty suffix
    with the number of such rows. *)
Theorem no_suffix_host_keeps_trailing_dot
  (urlparse : string -> option ParseResult)
  (tld_extract : string -> option ExtractResult)
  (reply : api_reply) (now article_title lang : string) (r : report)
  (url : string) (extracted : ExtractResult) :
  generate_geoprovenance_report urlparse tld_extract reply now
    article_title lang = Some r ->
  is_success r = true ->
  In url (map Citation.url (extract_citations_from_article urlparse reply)) ->
  tld_extract url = Some extracted ->
  ext_suffix extracted = "" ->
  let rows := analyze_url_geoprovenance tld_extract
                (map Citation.url
                   (extract_citations_from_article urlparse reply)) in
  let row := DomainInfo.Make url (ext_domain extracted ++ ".")%string
               (ext_subdomain extracted) "" None in
  classify tld_extract url = [row]
  /\ In row rows
  /\ Py.get "unique_domains" r
     = Some (Int (Pd.nunique (map DomainInfo.domain rows)))
  /\ In (ext_domain extracted ++ ".")%string (map DomainInfo.domain rows)
  /\ 1 <= Pd.nunique (map DomainInfo.domain rows)
  /\ exists tlds,
      Py.get "tld_distribution" r = Some (Counts tlds)
      /\ In ("", count_occ string_dec (map DomainInfo.tld rows) "") tlds
      /\ 1 <= count_occ string_dec (map DomainInfo.tld rows) "".
Proof.
  intros Hg Hs Hin He Hsuf rows row.
  assert (Hrow : domain_info url extracted = row).
  { unfold domain_info, row. now rewrite Hsuf. }
  assert (Hrows : In row rows).
  { rewrite <- Hrow. apply analyze_in. eauto. }
  destruct (generate_success _ _ _ _ _ _ _ Hg Hs) as [_ Hc].
  apply compile_fields in Hc as (_ & _ & _ & Hu & _ & Ht & _).
  fold rows in Hu, Ht.
  assert (Hdom : In (ext_domain extracted ++ ".")%string
                   (map DomainInfo.domain rows)).
  { apply in_map_iff. exists row. split; [reflexivity|exact Hrows]. }
  split; [unfold classify; now rewrite He, Hrow|].
  split; [exact Hrows|]. split; [exact Hu|]. split; [exact Hdom|].
  split; [eapply nunique_pos; exact Hdom|].
  eexists. split; [exact Ht|].
  assert (Hcol : In (Some "") (map (fun x => Some (DomainInfo.tld x)) rows)).
  { apply in_map_iff. exists row. split; [reflexivity|exact Hrows]. }
  apply value_counts_entry in Hcol.
  rewrite <- (map_map DomainInfo.tld Some), dropna_some in Hcol.
  rewrite <- (map_map DomainInfo.tld Some). exact Hcol.
Qed.

Lemma no_suffix_host_witness :
  exists r,
    generate_geoprovenance_report std_urlparse psl_extract
      (Wikitext links_wikitext) "2024-01-01T00:00:00" "Links" "en" = Some r
    /\ is_success r = true
    /\ In "http://localhost:8080/c"
         (map Citation.url
            (extract_citations_from_article std_urlparse (Wikitext links_wikitext)))
    /\ psl_extract "http://localhost:8080/c"
       = Some {| ext_subdomain := ""; ext_domain := "localhost";
                 ext_suffix := "" |}
    /\ let rows := analyze_url_geoprovenance psl_extract
                     (map Citation.url
                        (extract_citations_from_article std_urlparse
                           (Wikitext links_wikitext))) in
       let row := DomainInfo.Make "http://localhost:8080/c" "localhost." ""
                    "" None in
       classify psl_extract "http://localhost:8080/c" = [row]
       /\ In row rows
       /\ Py.get "unique_domains" r
          = Some (Int (Pd.nunique (map DomainInfo.domain rows)))
       /\ In "localhost." (map DomainInfo.domain rows)
       /\ 1 <= Pd.nunique (map DomainInfo.domain rows)
       /\ exists tlds,
           Py.get "tld_distribution" r = Some (Counts tlds)
           /\ In ("", count_occ string_dec (map DomainInfo.tld rows) "") tlds
           /\ 1 <= count_occ string_dec (map DomainInfo.tld rows) "".
Proof.
  eexists. split; [vm_compute; reflexivity|]. split; [reflexivity|].
  assert (Hin : In "http://localhost:8080/c"
                  (map Citation.url
                     (extract_citations_from_article std_urlparse
                        (Wikitext links_wikitext))))
    by (vm_compute; right; right; left; reflexivity).
  assert (He : psl_extract "http://localhost:8080/c"
               = Some {| ext_subdomain := ""; ext_domain := "localhost";
                         ext_suffix := "" |})
    by (vm_compute; reflexivity).
  split; [exact Hin|]. split; [exact He|].
  apply (no_suffix_host_keeps_trailing_dot std_urlparse psl_extract
           (Wikitext links_wikitext) "2024-01-01T00:00:00" "Links" "en" _
           "http://localhost:8080/c"
           {| ext_subdomain := ""; ext_domain := "localhost"; ext_suffix := "" |}).
  - vm_compute; reflexivity.
  - reflexivity.
  - exact Hin.
  - exact He.
  - reflexivity.
Defined.

(** ** What a match is made of *)

Lemma every_drop (p : ascii -> bool) (n : nat) :
  forall s, every p s = true -> every p (Py.drop n s) = true.
Proof.
  induction n as [|n IH]; intros [|c s]; simpl; auto.
  intros H. apply andb_true_iff in H as [_ H]. auto.
Qed.

Lemma every_take (p : ascii -> bool) (n : nat) :
  forall s, every p s = true -> every p (Py.take n s) = true.
Proof.
  induction n as [|n IH]; intros [|c s]; simpl; auto.
  intros H. apply andb_true_iff in H as [Hc H]. rewrite Hc. simpl. auto.
Qed.

Lemma every_weaken (p r : ascii -> bool) (s : string) :
  (forall c, p c = true -> r c = true) -> every p s = true -> every r s = true.
Proof.
  intros Hpr. induction s as [|c s IH]; simpl; [reflexivity|].
  intros H. apply andb_true_iff in H as [Hc H]. now rewrite (Hpr c Hc), IH.
Qed.

Lemma every_take_run (p : ascii -> bool) (n : nat) :
  forall s, n <= Py.run p s -> every p (Py.take n s) = true.
Proof.
  induction n as [|n IH]; intros [|c s]; simpl; auto.
  destruct (p c); simpl; [|intros H; inversion H].
  intros H. apply IH. lia.
Qed.

Lemma take_add (n m : nat) :
  forall s, Py.take (n + m) s = (Py.take n s ++ Py.take m (Py.drop n s))%string.
Proof.
  induction n as [|n IH]; intros s; simpl.
  - destruct m; destruct s; reflexivity.
  - destruct s as [|c s]; simpl; [now destruct m|]. now rewrite IH.
Qed.

Lemma drop_drop (n m : nat) :
  forall s, Py.drop m (Py.drop n s) = Py.drop (n + m) s.
Proof.
  induction n as [|n IH]; intros s; simpl; [reflexivity|].
  destruct s as [|c s]; [now destruct m|]. apply IH.
Qed.

Lemma every_app (p : ascii -> bool) (a b : string) :
  every p (a ++ b) = every p a && every p b.
Proof.
  induction a as [|c a IH]; simpl; [reflexivity|]. now rewrite IH, andb_assoc.
Qed.

Lemma hi_le (k : Re.quant) (avail : nat) : Re.hi k avail <= avail.
Proof. destruct k; unfold Re.hi; lia. Qed.

(** A successful match cuts the text as [fits] says. *)
Lemma match_here_fits (re : list Re.item) :
  forall s ns, Re.match_here re s = Some ns -> fits re s ns.
Proof.
  induction re as [|it re IH]; simpl; intros s ns.
  - now intros [= <-].
  - pose proof (hi_le (Re.q it) (Py.run (Re.cls it) s)) as Hle.
    revert Hle. generalize (Re.hi (Re.q it) (Py.run (Re.cls it) s)).
    intros n. induction n as [|n IHn]; intros Hle.
    + destruct (0 <? Re.lo (Re.q it)) eqn:Hlo; [discriminate|].
      apply Nat.ltb_ge in Hlo.
      destruct (Re.match_here re (Py.drop 0 s)) eqn:E; [|discriminate].
      intros [= <-]. simpl. repeat split; [lia|exact Hlo|]. now apply IH.
    + destruct (S n <? Re.lo (Re.q it)) eqn:Hlo; [discriminate|].
      apply Nat.ltb_ge in Hlo.
      destruct (Re.match_here re (Py.drop (S n) s)) eqn:E.
      * intros [= <-]. simpl. repeat split; [exact Hle|exact Hlo|].
        now apply IH.
      * intros H. apply IHn; [lia|exact H].
Qed.

(** The matched text is made of characters of the items' classes. *)
Lemma fits_every (P : ascii -> bool) (re : list Re.item) :
  (forall it c, In it re -> Re.cls it c = true -> P c = true) ->
  forall s ns, fits re s ns -> every P (Py.take (list_sum ns) s) = true.
Proof.
  induction re as [|it re IH]; intros HP s [|n ns]; simpl; try tauto;
    try (now destruct s).
  intros (Hn & _ & Hrest). rewrite take_add, every_app.
  apply andb_true_iff. split.
  - apply every_weaken with (p := Re.cls it);
      [intros c; apply HP; now left|now apply every_take_run].
  - apply IH; [|exact Hrest]. intros it' c Hin. apply HP. now right.
Qed.

(** An item that must take a character finds one of its class in the
    text. *)
Lemma fits_needs (P : ascii -> bool) (re : list Re.item) (it : Re.item) :
  In it re -> 1 <= Re.lo (Re.q it) ->
  (forall c, Re.cls it c = true -> P c = false) ->
  forall s ns, every P s = true -> fits re s ns -> False.
Proof.
  intros Hin Hlo Hcls. induction re as [|it' re IH]; [destruct Hin|].
  intros s [|n ns] HP; simpl; [tauto|]. intros (Hn & Hlo' & Hrest).
  destruct Hin as [->|Hin].
  - destruct s as [|c s]; simpl in Hn; [lia|].
    destruct (Re.cls it c) eqn:Hc; [|lia].
    simpl in HP. apply andb_true_iff in HP as [HPc _].
    rewrite (Hcls c Hc) in HPc. discriminate.
  - apply (IH Hin (Py.drop n s) ns); [now apply every_drop|exact Hrest].
Qed.

Lemma finditer_from_none (p : Re.pattern) (P : ascii -> bool) :
  (forall s, every P s = true -> Re.match_at p s = None) ->
  forall s k, every P s = true -> Re.finditer_from p s k = [].
Proof.
  intros Hnone. induction s as [|c s IH]; intros k HP; simpl.
  - destruct k; [|reflexivity]. now rewrite (Hnone "" HP).
  - assert (HP' : every P s = true)
      by (simpl in HP; now apply andb_true_iff in HP as [_ HP]).
    destruct k; [|now apply IH]. rewrite (Hnone _ HP). now apply IH.
Qed.

Lemma match_at_needs (p : Re.pattern) (P : ascii -> bool) (it : Re.item) :
  In it (Re.items p) -> 1 <= Re.lo (Re.q it) ->
  (forall c, Re.cls it c = true -> P c = false) ->
  forall s, every P s = true -> Re.match_at p s = None.
Proof.
  intros Hin Hlo Hcls s HP. unfold Re.match_at.
  destruct (Re.match_here (Re.items p) s) as [ns|] eqn:E; [|reflexivity].
  exfalso. apply match_here_fits in E.
  exact (fits_needs P _ it Hin Hlo Hcls s ns HP E).
Qed.

Lemma lit_exact (x : ascii) :
  (Re.lit "=" x = true -> x = "="%char) /\ (Re.lit ":" x = true -> x = ":"%char).
Proof.
  destruct x as [[] [] [] [] [] [] [] []]; split; intros H;
    solve [reflexivity | discriminate H].
Qed.

(** ** Trimming *)

Lemma lstrip_by_every (P p : ascii -> bool) (s : string) :
  every P s = true -> every P (Py.lstrip_by p s) = true.
Proof.
  induction s as [|c s IH]; simpl; [reflexivity|].
  intros H. destruct (p c); [|exact H].
  apply andb_true_iff in H as [_ H]. auto.
Qed.

Lemma rstrip_by_every (P p : ascii -> bool) (s : string) :
  every P s = true -> every P (Py.rstrip_by p s) = true.
Proof.
  induction s as [|c s IH]; simpl; [reflexivity|].
  intros H. apply andb_true_iff in H as [Hc H]. specialize (IH H).
  destruct (Py.rstrip_by p s) as [|d r].
  - destruct (p c); simpl; [reflexivity|now rewrite Hc].
  - simpl in *. now rewrite Hc, IH.
Qed.

Lemma rstrip_by_id (p : ascii -> bool) (s : string) :
  every (fun c => negb (p c)) s = true -> Py.rstrip_by p s = s.
Proof.
  induction s as [|c s IH]; simpl; [reflexivity|].
  intros H. apply andb_true_iff in H as [Hc H]. rewrite (IH H).
  apply negb_true_iff in Hc. rewrite Hc. now destruct s.
Qed.

Lemma lstrip_by_id (p : ascii -> bool) (s : string) :
  every (fun c => negb (p c)) s = true -> Py.lstrip_by p s = s.
Proof.
  destruct s as [|c s]; simpl; [reflexivity|].
  intros H. apply andb_true_iff in H as [Hc _].
  apply negb_true_iff in Hc. now rewrite Hc.
Qed.

Lemma lstrip_by_head (p : ascii -> bool) (s : string) :
  Py.lstrip_by p s = EmptyString
  \/ exists c r, Py.lstrip_by p s = String c r /\ p c = false.
Proof.
  induction s as [|c s IH]; simpl; [now left|].
  destruct (p c) eqn:Hc; [exact IH|]. right. eauto.
Qed.

Lemma rstrip_by_head (p : ascii -> bool) (c : ascii) (r : string) :
  p c = false -> exists r', Py.rstrip_by p (String c r) = String c r'.
Proof.
  intros Hc. simpl. destruct (Py.rstrip_by p r); [rewrite Hc|]; eauto.
Qed.

(** [strip] twice is [strip] once. *)
Lemma strip_idem (s : string) : Py.strip (Py.strip s) = Py.strip s.
Proof.
  unfold Py.strip.
  destruct (lstrip_by_head Py.isspace s) as [->|(c & r & -> & Hc)];
    [reflexivity|].
  destruct (rstrip_by_head Py.isspace c r Hc) as [r' Hr]. rewrite Hr.
  simpl Py.lstrip_by. rewrite Hc, <- Hr. apply rstrip_by_idem.
Qed.

Lemma solid_is_plain (c : ascii) : solid_char c = true -> plain_char c = true.
Proof.
  destruct c as [[] [] [] [] [] [] [] []]; intros H;
    solve [reflexivity | discriminate H].
Qed.

Lemma solid_not_space (c : ascii) :
  solid_char c = true -> negb (Py.isspace c) = true.
Proof.
  unfold solid_char. rewrite negb_orb. intros H.
  apply andb_true_iff in H as [H _]. exact H.
Qed.

Lemma plain_not_bar (c : ascii) :
  plain_char c = true -> negb (Py.mem c "|}") = true.
Proof.
  destruct c as [[] [] [] [] [] [] [] []]; intros H;
    solve [reflexivity | discriminate H].
Qed.

Lemma direct_items_solid (it : Re.item) (c : ascii) :
  In it (Re.items direct_url_pattern) -> Re.cls it c = true ->
  solid_char c = true.
Proof.
  simpl. intros H.
  repeat (destruct H as [<-|H];
          [destruct c as [[] [] [] [] [] [] [] []]; intros Hc;
           solve [reflexivity | discriminate Hc]|]).
  destruct H.
Qed.

Lemma take_nonempty (p : ascii -> bool) (n : nat) (s : string) :
  1 <= n -> n <= Py.run p s -> Py.take n s <> EmptyString.
Proof.
  destruct n as [|n]; [lia|]. destruct s as [|c s]; simpl; [lia|].
  discriminate.
Qed.

(** The group of a [url=] match is not empty and holds neither [|] nor
    [}] nor a line feed. *)
Lemma url_param_group (wikitext : string) (m : Re.rmatch) :
  In m (Re.finditer url_param_pattern wikitext) ->
  exists g, Re.group1 m = Some g /\ g <> EmptyString
            /\ every plain_char g = true.
Proof.
  intros Hin. destruct (finditer_from_in _ _ _ _ Hin) as (s & n & Hm).
  unfold Re.match_at in Hm.
  destruct (Re.match_here (Re.items url_param_pattern) s) as [ns|] eqn:E;
    [|discriminate].
  apply match_here_fits in E.
  destruct ns as [|a [|b [|c [|d [|e [|f [|g [|? ?]]]]]]]];
    simpl in E; try (exfalso; tauto).
  destruct E as (_ & _ & _ & _ & _ & _ & _ & _ & _ & _ & _ & _
                 & Hg & Hlo & _).
  assert (Hdrop : Py.drop f (Py.drop e (Py.drop d (Py.drop c (Py.drop b
                    (Py.drop a s)))))
                  = Py.drop (0 + a + b + c + d + e + f) s)
    by (rewrite !drop_drop; f_equal; lia).
  rewrite Hdrop in Hg. cbn [Re.items url_param_pattern Re.group_span Re.grouped]
    in Hm.
  injection Hm as _ <-. cbn [Re.group1]. eexists. split; [reflexivity|].
  split.
  - eapply take_nonempty; [exact Hlo|exact Hg].
  - eapply every_weaken; [|apply every_take_run; exact Hg].
    intros x Hx. exact Hx.
Qed.

Lemma direct_match_solid (wikitext : string) (m : Re.rmatch) :
  In m (Re.finditer direct_url_pattern wikitext) ->
  every solid_char (Re.group0 m) = true.
Proof.
  intros Hin. destruct (finditer_from_in _ _ _ _ Hin) as (s & n & Hm).
  unfold Re.match_at in Hm.
  destruct (Re.match_here (Re.items direct_url_pattern) s) as [ns|] eqn:E;
    [|discriminate].
  injection Hm as _ <-. cbn [Re.group0].
  apply (fits_every solid_char (Re.items direct_url_pattern));
    [intros it c; apply direct_items_solid|now apply match_here_fits].
Qed.

Lemma strip_solid (s : string) : every solid_char s = true -> Py.strip s = s.
Proof.
  intros H. unfold Py.strip.
  assert (Hs : every (fun c => negb (Py.isspace c)) s = true)
    by (eapply every_weaken; [apply solid_not_space|exact H]).
  now rewrite (lstrip_by_id _ _ Hs), (rstrip_by_id _ _ Hs).
Qed.

Lemma rstrip_plain (s : string) :
  every plain_char s = true -> Py.rstrip "|}" s = s.
Proof.
  intros H. apply rstrip_by_id.
  eapply every_weaken; [apply plain_not_bar|exact H].
Qed.

Lemma strip_every (P : ascii -> bool) (s : string) :
  every P s = true -> every P (Py.strip s) = true.
Proof. intros H. unfold Py.strip. now apply rstrip_by_every, lstrip_by_every. Qed.

Lemma url_param_candidate (wikitext : string) (m : Re.rmatch) :
  In m (Re.finditer url_param_pattern wikitext) ->
  exists g, Re.group1 m = Some g /\ g <> EmptyString
            /\ every plain_char g = true
            /\ candidate_url url_param_pattern m = Some (Py.strip g).
Proof.
  intros Hin. destruct (url_param_group _ _ Hin) as (g & Hg & Hne & Hp).
  exists g. repeat split; try assumption.
  unfold candidate_url. simpl. rewrite Hg. simpl.
  now rewrite rstrip_plain by now apply strip_every.
Qed.

Lemma direct_candidate (wikitext : string) (m : Re.rmatch) :
  In m (Re.finditer direct_url_pattern wikitext) ->
  every solid_char (Re.group0 m) = true
  /\ candidate_url direct_url_pattern m = Some (Re.group0 m).
Proof.
  intros Hin. pose proof (direct_match_solid _ _ Hin) as Hs.
  split; [exact Hs|]. unfold candidate_url. simpl.
  rewrite (strip_solid _ Hs). rewrite rstrip_plain; [reflexivity|].
  eapply every_weaken; [apply solid_is_plain|exact Hs].
Qed.

Lemma candidates_clean (wikitext url : string) :
  In url (candidates wikitext) ->
  every plain_char url = true /\ Py.strip url = url.
Proof.
  unfold candidates. simpl. rewrite app_nil_r. intros H.
  apply in_app_or in H as [H|H]; unfold pattern_candidates in H;
    apply in_flat_map in H as (m & Hm & Hu).
  - destruct (url_param_candidate _ m Hm) as (g & _ & _ & Hp & Hc).
    rewrite Hc in Hu. destruct Hu as [<-|[]].
    split; [now apply strip_every|apply strip_idem].
  - destruct (direct_candidate _ m Hm) as (Hs & Hc). rewrite Hc in Hu.
    destruct Hu as [<-|[]].
    split; [eapply every_weaken; [apply solid_is_plain|exact Hs]
           |now apply strip_solid].
Qed.

(** X1.  The trimming of a match only strips white space: the call
    [rstrip('|}')] never removes a character, since no match reaches a
    [|] or a [}].  A [url=] match gives its group, which is not empty and
    has no line feed, stripped of white space; a direct match gives the
    whole matched text unchanged. *)
Theorem trimming_only_strips_white_space (wikitext : string) :
  (forall m, In m (Re.finditer url_param_pattern wikitext) ->
     exists g, Re.group1 m = Some g /\ g <> EmptyString
               /\ every plain_char g = true
               /\ candidate_url url_param_pattern m = Some (Py.strip g))
  /\ (forall m, In m (Re.finditer direct_url_pattern wikitext) ->
        every solid_char (Re.group0 m) = true
        /\ candidate_url direct_url_pattern m = Some (Re.group0 m)).
Proof.
  split; intros m Hin;
    [now apply url_param_candidate with wikitext
    |now apply direct_candidate with wikitext].
Qed.

(** X2.  Every citation of an extraction result has a URL without [|],
    [}] or line feed and without white space at its ends; [urlparse]
    accepts that URL with the scheme http or https, and the citation's
    domain is the network location of the URL, which is not empty. *)
Theorem extracted_citations_are_clean
  (urlparse : string -> option ParseResult) (wikitext : string) :
  exists result,
    _parse_citations_from_wikitext urlparse wikitext = Some result
    /\ forall c, In c result ->
         every plain_char (Citation.url c) = true
         /\ Py.strip (Citation.url c) = Citation.url c
         /\ exists parsed,
             urlparse (Citation.url c) = Some parsed
             /\ (scheme parsed = "http" \/ scheme parsed = "https")
             /\ Citation.domain c = netloc parsed
             /\ Citation.domain c <> "".
Proof.
  eexists. split; [apply parse_citations_eq|].
  intros c Hc. apply parse_result_members in Hc as (u & Hu & Hv & ->).
  destruct (candidates_clean _ _ Hu) as [Hp Hs]. simpl.
  split; [exact Hp|]. split; [exact Hs|].
  apply valid_url_spec in Hv as (parsed & Hparsed & Hsch & Hn & _).
  exists parsed. unfold netloc_of. rewrite Hparsed. auto.
Qed.

Lemma no_equals_no_colon_no_candidate (wikitext : string) :
  every (fun c => negb (Py.mem c "=:")) wikitext = true ->
  candidates wikitext = [].
Proof.
  intros H. unfold candidates, pattern_candidates, Re.finditer. simpl.
  rewrite (finditer_from_none url_param_pattern
             (fun c => negb (Py.mem c "=:"))); [|  |exact H].
  - rewrite (finditer_from_none direct_url_pattern
               (fun c => negb (Py.mem c "=:"))); [reflexivity| |exact H].
    apply match_at_needs with (it := Re.Item (Re.lit ":") Re.One false).
    + simpl. tauto.
    + simpl. lia.
    + intros c Hc. apply lit_exact in Hc. now subst c.
  - apply match_at_needs with (it := Re.Item (Re.lit "=") Re.One false).
    + simpl. tauto.
    + simpl. lia.
    + intros c Hc. apply lit_exact in Hc. now subst c.
Qed.

(** X3.  A text with neither [=] nor [:] gives no citation, whatever
    [urlparse] does, and its report is the error report. *)
Theorem text_without_equals_or_colon_has_no_citation
  (urlparse : string -> option ParseResult)
  (tld_extract : string -> option ExtractResult)
  (wikitext now article_title lang : string) :
  every (fun c => negb (Py.mem c "=:")) wikitext = true ->
  _parse_citations_from_wikitext urlparse wikitext = Some []
  /\ extract_citations_from_article urlparse (Wikitext wikitext) = []
  /\ generate_geoprovenance_report urlparse tld_extract (Wikitext wikitext)
       now article_title lang
     = Some [("error", Str "No citations found or article inaccessible")].
Proof.
  intros H.
  assert (Hp : _parse_citations_from_wikitext urlparse wikitext = Some []).
  { rewrite parse_citations_eq, (no_equals_no_colon_no_candidate _ H).
    reflexivity. }
  assert (He : extract_citations_from_article urlparse (Wikitext wikitext) = []).
  { simpl. now rewrite Hp. }
  split; [exact Hp|]. split; [exact He|]. now apply generate_empty.
Qed.

Lemma text_without_link_witness :
  every (fun c => negb (Py.mem c "=:")) "A text without any link." = true
  /\ _parse_citations_from_wikitext std_urlparse "A text without any link."
     = Some []
  /\ extract_citations_from_article std_urlparse
       (Wikitext "A text without any link.") = []
  /\ generate_geoprovenance_report std_urlparse psl_extract
       (Wikitext "A text without any link.") "2024-01-01T00:00:00" "Plain" "en"
     = Some [("error", Str "No citations found or article inaccessible")].
Proof.
  split; [reflexivity|].
  apply (text_without_equals_or_colon_has_no_citation std_urlparse psl_extract
           "A text without any link." "2024-01-01T00:00:00" "Plain" "en").
  reflexivity.
Defined.

(** ** The deduplication step on any list *)

Section DedupLemmas.

Context {V : Type}.
Variable key : V -> string.

Lemma set_fresh (k : string) (v : V) (d : list (string * V)) :
  ~ In k (Py.keys d) -> Dict.set k v d = d ++ [(k, v)].
Proof.
  unfold Py.keys. induction d as [|[k' v'] d IH]; simpl; [reflexivity|].
  intros H. destruct (String.eqb_spec k k') as [->|Hne]; [tauto|].
  rewrite IH; [reflexivity|tauto].
Qed.

Lemma comprehension_nodup (l : list V) :
  NoDup (map key l) ->
  Dict.comprehension key l = map (fun c => (key c, c)) l.
Proof.
  induction l as [|c l IH] using rev_ind; [reflexivity|].
  rewrite map_app. simpl. intros H.
  apply NoDup_remove in H as [Hnd Hout]. rewrite app_nil_r in Hnd, Hout.
  rewrite comprehension_snoc, IH by exact Hnd.
  rewrite set_fresh, map_app; [reflexivity|].
  unfold Py.keys. rewrite map_map. simpl. exact Hout.
Qed.

Lemma values_keys (l : list V) :
  map key (Dict.values (Dict.comprehension key l)) = keep_first (map key l).
Proof.
  rewrite <- comprehension_keys. unfold Dict.values, Py.keys.
  rewrite map_map.
  assert (H : forall e, In e (Dict.comprehension key l) -> key (snd e) = fst e).
  { intros [k v] Hin. simpl. now apply comprehension_in in Hin. }
  induction (Dict.comprehension key l) as [|e d IH]; simpl; [reflexivity|].
  rewrite H by now left. f_equal. apply IH. intros; apply H. now right.
Qed.

Lemma keep_first_length (l : list string) :
  List.length (keep_first l) <= List.length l.
Proof.
  induction l as [|x l IH]; simpl; [lia|].
  pose proof (filter_length_le (fun y => negb (String.eqb y x)) (keep_first l)).
  lia.
Qed.

End DedupLemmas.

(** X4.  The deduplication step, on any list of citations: the result
    has distinct URLs, the same set of URLs as the list, and is not
    longer; a list with distinct URLs is returned as it is, so the step
    changes nothing when applied again, in particular to an extraction
    result. *)
Theorem dedup_keeps_each_url_once (cs : list Citation.t) :
  NoDup (map Citation.url (dedup cs))
  /\ (forall u, In u (map Citation.url (dedup cs))
                <-> In u (map Citation.url cs))
  /\ List.length (dedup cs) <= List.length cs
  /\ (NoDup (map Citation.url cs) -> dedup cs = cs)
  /\ dedup (dedup cs) = dedup cs
  /\ (forall urlparse wikitext,
        exists result,
          _parse_citations_from_wikitext urlparse wikitext = Some result
          /\ dedup result = result).
Proof.
  assert (Hid : forall l : list Citation.t,
             NoDup (map Citation.url l) -> dedup l = l).
  { intros l H. unfold dedup, Dict.values.
    rewrite comprehension_nodup by exact H. rewrite map_map. simpl.
    apply map_id. }
  assert (Hnd : forall l : list Citation.t, NoDup (map Citation.url (dedup l))).
  { intros l. unfold dedup. rewrite values_keys. apply keep_first_nodup. }
  split; [apply Hnd|]. split; [|split; [|split; [apply Hid|split]]].
  - intros u. unfold dedup. rewrite values_keys. apply keep_first_in.
  - rewrite <- (length_map Citation.url (dedup cs)). unfold dedup.
    rewrite values_keys, <- (length_map Citation.url cs).
    apply keep_first_length.
  - apply Hid, Hnd.
  - intros urlparse wikitext. eexists. split; [apply parse_citations_eq|].
    apply Hid. apply (Hnd _).
Qed.

(** ** More on classification *)

Lemma lower_length (s : string) : String.length (Py.lower s) = String.length s.
Proof. induction s as [|c s IH]; simpl; [reflexivity|now rewrite IH]. Qed.

Lemma classified_urls (tld_extract : string -> option ExtractResult)
  (urls : list string) :
  map DomainInfo.url (flat_map (classify tld_extract) urls)
  = filter (decomposes tld_extract) urls.
Proof.
  induction urls as [|url urls IH]; simpl; [reflexivity|].
  rewrite map_app, IH. unfold classify, decomposes.
  destruct (tld_extract url); reflexivity.
Qed.

(** X5.  The rows of the classification carry, in order, exactly the URLs
    that decompose, each unchanged.  In every row the suffix, subdomain
    and domain come from the decomposition of the row's URL and the
    country is the lookup of the row's suffix, so rows with the same
    suffix have the same country.  Classifying a concatenation gives the
    concatenation of the classifications. *)
Theorem classification_rows_follow_urls
  (tld_extract : string -> option ExtractResult) (urls more : list string) :
  map DomainInfo.url (analyze_url_geoprovenance tld_extract urls)
  = filter (decomposes tld_extract) urls
  /\ (forall row,
        In row (analyze_url_geoprovenance tld_extract urls) ->
        In (DomainInfo.url row) urls
        /\ DomainInfo.country_from_tld row
           = _get_country_from_tld (DomainInfo.tld row)
        /\ exists extracted,
            tld_extract (DomainInfo.url row) = Some extracted
            /\ DomainInfo.tld row = ext_suffix extracted
            /\ DomainInfo.subdomain row = ext_subdomain extracted
            /\ DomainInfo.domain row
               = (ext_domain extracted ++ "." ++ DomainInfo.tld row)%string)
  /\ analyze_url_geoprovenance tld_extract (urls ++ more)
     = analyze_url_geoprovenance tld_extract urls
       ++ analyze_url_geoprovenance tld_extract more.
Proof.
  split; [rewrite analyze_eq; apply classified_urls|]. split.
  - intros row Hrow. apply analyze_in in Hrow as (u & e & Hu & He & ->).
    simpl. split; [exact Hu|]. split; [reflexivity|]. exists e. auto.
  - rewrite !analyze_eq. apply flat_map_app.
Qed.

(** X6.  Only a suffix of exactly two characters gets a country, and the
    country is then the table's entry for the lowercased suffix: the
    empty suffix and every longer suffix get none. *)
Theorem country_only_for_two_letter_suffix (tld country : string) :
  _get_country_from_tld tld = Some country ->
  String.length tld = 2 /\ In (Py.lower tld, country) country_tlds.
Proof.
  intros H. apply get_some_key in H. split; [|exact H].
  rewrite <- lower_length. revert H. generalize (Py.lower tld). intros k H.
  unfold country_tlds in H. simpl in H.
  repeat (destruct H as [H|H]; [injection H as <- _; reflexivity|]).
  destruct H.
Qed.

Lemma two_letter_suffix_witness :
  _get_country_from_tld "DE" = Some "Germany"
  /\ String.length "DE" = 2 /\ In (Py.lower "DE", "Germany") country_tlds.
Proof.
  split; [reflexivity|].
  apply (country_only_for_two_letter_suffix "DE" "Germany"). reflexivity.
Defined.

Lemma nodup_values_inj {A : Type} (d : list (string * A)) (a b : string) (c : A) :
  NoDup (map snd d) -> In (a, c) d -> In (b, c) d -> a = b.
Proof.
  induction d as [|[k v] d IH]; simpl; [tauto|].
  intros Hnd Ha Hb. inversion Hnd as [|? ? Hout Hnd']; subst.
  destruct Ha as [Ha|Ha]; destruct Hb as [Hb|Hb].
  - congruence.
  - exfalso. injection Ha as _ ->. apply Hout, in_map_iff.
    exists (b, c). auto.
  - exfalso. injection Hb as _ ->. apply Hout, in_map_iff.
    exists (a, c). auto.
  - now apply IH.
Qed.

Lemma country_names_nodup : NoDup (map snd country_tlds).
Proof.
  unfold country_tlds; simpl.
  repeat (constructor; [simpl; intuition discriminate|]). constructor.
Qed.

(** X7.  The table names each country once: two suffixes with the same
    country are the same up to case, so the country counts of a report
    never merge two country codes. *)
Theorem country_determines_code (s t country : string) :
  _get_country_from_tld s = Some country ->
  _get_country_from_tld t = Some country ->
  Py.lower s = Py.lower t.
Proof.
  intros Hs Ht. apply get_some_key in Hs, Ht.
  exact (nodup_values_inj _ _ _ _ country_names_nodup Hs Ht).
Qed.

Lemma country_determines_code_witness :
  _get_country_from_tld "Fr" = Some "France"
  /\ _get_country_from_tld "fR" = Some "France"
  /\ Py.lower "Fr" = Py.lower "fR".
Proof.
  split; [reflexivity|]. split; [reflexivity|].
  apply (country_determines_code "Fr" "fR" "France"); reflexivity.
Defined.

(** ** More on counting *)

Lemma nunique_le (col : list string) : Pd.nunique col <= List.length col.
Proof.
  unfold Pd.nunique. apply NoDup_incl_length; [apply NoDup_nodup|].
  intros x Hx. now apply nodup_In in Hx.
Qed.

Lemma incr_keys (k : string) (d : list (string * nat)) :
  Py.keys (Pd.incr k d)
  = if in_dec string_dec k (Py.keys d) then Py.keys d else Py.keys d ++ [k].
Proof.
  unfold Py.keys.
  induction d as [|[k' n] d IH]; simpl; [reflexivity|].
  destruct (String.eqb_spec k k') as [->|Hne]; simpl.
  - destruct (string_dec k' k'); [reflexivity|congruence].
  - rewrite IH.
    destruct (string_dec k' k) as [->|Hne2]; [congruence|].
    destruct (in_dec string_dec k (map fst d)); reflexivity.
Qed.

Lemma tally_keys_eq (xs : list string) : Py.keys (Pd.tally xs) = keep_first xs.
Proof.
  induction xs as [|x xs IH] using rev_ind; [reflexivity|].
  rewrite tally_snoc, incr_keys, IH, keep_first_snoc.
  destruct (in_dec string_dec x (keep_first xs)) as [H|H];
    destruct (in_dec string_dec x xs) as [H'|H'];
    try reflexivity; exfalso; rewrite keep_first_in in H; tauto.
Qed.

Lemma insert_desc_perm (x : string * nat) (l : list (string * nat)) :
  Permutation (Pd.insert_desc x l) (x :: l).
Proof.
  induction l as [|y l IH]; simpl; [reflexivity|].
  destruct (snd y <=? snd x); [reflexivity|].
  rewrite IH. apply perm_swap.
Qed.

Lemma sort_desc_perm (l : list (string * nat)) : Permutation (Pd.sort_desc l) l.
Proof.
  induction l as [|x l IH]; simpl; [reflexivity|].
  rewrite insert_desc_perm. now constructor.
Qed.

Lemma insert_desc_sorted (x : string * nat) (l : list (string * nat)) :
  StronglySorted (fun a b => snd b <= snd a) l ->
  StronglySorted (fun a b => snd b <= snd a) (Pd.insert_desc x l).
Proof.
  induction l as [|y l IH]; simpl; intros H.
  - repeat constructor.
  - inversion H as [|? ? Hl Hy]; subst.
    destruct (snd y <=? snd x) eqn:E.
    + apply Nat.leb_le in E. constructor; [exact H|].
      constructor; [exact E|].
      rewrite Forall_forall in *. intros z Hz. specialize (Hy z Hz). lia.
    + apply Nat.leb_gt in E. constructor; [now apply IH|].
      rewrite Forall_forall in *. intros z Hz.
      apply insert_desc_in in Hz as [->|Hz]; [lia|auto].
Qed.

Lemma sort_desc_sorted (l : list (string * nat)) :
  StronglySorted (fun a b => snd b <= snd a) (Pd.sort_desc l).
Proof.
  induction l as [|x l IH]; simpl; [constructor|now apply insert_desc_sorted].
Qed.

Lemma skipn_in {A : Type} (n : nat) (l : list A) (y : A) :
  In y (skipn n l) -> In y l.
Proof.
  intros H. rewrite <- (firstn_skipn n l). apply in_or_app. now right.
Qed.

Lemma sorted_firstn_skipn {A : Type} (R : A -> A -> Prop) (n : nat) :
  forall l x y, StronglySorted R l ->
                In x (firstn n l) -> In y (skipn n l) -> R x y.
Proof.
  induction n as [|n IH]; intros [|a l] x y Hs; simpl; try tauto.
  inversion Hs as [|? ? Hl Ha]; subst. intros [<-|Hx] Hy.
  - rewrite Forall_forall in Ha. apply Ha. eapply skipn_in; eauto.
  - eapply IH; eauto.
Qed.

(** What [value_counts] gives for any column. *)
Lemma value_counts_shape (col : list (option string)) :
  StronglySorted (fun a b => snd b <= snd a) (Pd.value_counts col)
  /\ NoDup (Py.keys (Pd.value_counts col))
  /\ (forall k n, In (k, n) (Pd.value_counts col) ->
                  1 <= n /\ n = count_occ string_dec (Pd.dropna col) k)
  /\ (forall x y, In x (firstn 3 (Pd.value_counts col)) ->
                  In y (skipn 3 (Pd.value_counts col)) -> snd y <= snd x).
Proof.
  assert (Hs := sort_desc_sorted (Pd.tally (Pd.dropna col))).
  assert (Hnd : NoDup (Py.keys (Pd.tally (Pd.dropna col))))
    by (rewrite tally_keys_eq; apply keep_first_nodup).
  unfold Pd.value_counts. split; [exact Hs|]. split; [|split].
  - unfold Py.keys in *.
    eapply Permutation_NoDup; [|exact Hnd].
    apply Permutation_map, Permutation_sym, sort_desc_perm.
  - intros k n Hin. rewrite sort_desc_in in Hin.
    apply nodup_keys_get in Hin; [|exact Hnd]. rewrite tally_get in Hin.
    destruct (count_occ string_dec (Pd.dropna col) k); [discriminate|].
    injection Hin as <-. split; [lia|reflexivity].
  - intros x y Hx Hy.
    exact (sorted_firstn_skipn _ 3 _ x y Hs Hx Hy).
Qed.

Lemma value_counts_table (col : list (option string)) :
  frequency_table col (Pd.value_counts col).
Proof.
  destruct (value_counts_shape col) as (Hs & Hnd & Hc & Ht).
  repeat split; try assumption; try (now apply Hc in H).
  intros k Hk. apply value_counts_entry in Hk as [Hk _].
  unfold Py.keys. apply in_map_iff. eexists. split; [|exact Hk]. reflexivity.
Qed.

(** ** More on reports *)

Lemma analyze_nil_iff (tld_extract : string -> option ExtractResult)
  (urls : list string) :
  analyze_url_geoprovenance tld_extract urls = []
  <-> forall url, In url urls -> tld_extract url = None.
Proof.
  rewrite analyze_eq. induction urls as [|u urls IH]; simpl; [tauto|].
  unfold classify at 1. destruct (tld_extract u) as [e|] eqn:E; simpl.
  - split; [discriminate|]. intros H. specialize (H u (or_introl eq_refl)).
    congruence.
  - rewrite IH. split; [intros H url [<-|Hin]; auto|intros H url Hin; auto].
Qed.

Lemma compile_more (article_title now : string) (cs : list Citation.t)
  (rs : list DomainInfo.t) (r : report) :
  compile_report article_title now cs rs = Some r ->
  Py.get "article_title" r = Some (Str article_title)
  /\ Py.get "citations" r = Some (Citations cs)
  /\ Py.get "analysis_timestamp" r = Some (Str now).
Proof.
  unfold compile_report. destruct rs; [discriminate|]. intros [= <-].
  repeat split.
Qed.

Lemma compile_raises_iff (article_title now : string) (cs : list Citation.t)
  (rs : list DomainInfo.t) :
  compile_report article_title now cs rs = None <-> rs = [].
Proof. unfold compile_report. destruct rs; split; congruence. Qed.

Lemma compile_is_success (article_title now : string) (cs : list Citation.t)
  (rs : list DomainInfo.t) (r : report) :
  compile_report article_title now cs rs = Some r -> is_success r = true.
Proof.
  intros H. apply compile_fields in H as (_ & Hk & _).
  unfold is_success, Py.has_key. now rewrite Hk.
Qed.

(** X8.  What report generation comes to.  Without citations it returns
    the error report.  With citations of which at least one URL
    decomposes it returns a successful report.  With citations of which
    no URL decomposes the frame has no column and the generation raises;
    this is the only case in which it raises, so it never does when the
    extractor works on every URL. *)
Theorem report_generation_outcomes
  (urlparse : string -> option ParseResult)
  (tld_extract : string -> option ExtractResult)
  (reply : api_reply) (now article_title lang : string) :
  (extract_citations_from_article urlparse reply = [] ->
   generate_geoprovenance_report urlparse tld_extract reply now
     article_title lang
   = Some [("error", Str "No citations found or article inaccessible")])
  /\ (forall c,
        In c (extract_citations_from_article urlparse reply) ->
        decomposes tld_extract (Citation.url c) = true ->
        exists r,
          generate_geoprovenance_report urlparse tld_extract reply now
            article_title lang = Some r
          /\ is_success r = true)
  /\ (generate_geoprovenance_report urlparse tld_extract reply now
        article_title lang = None
      <-> extract_citations_from_article urlparse reply <> []
          /\ forall c, In c (extract_citations_from_article urlparse reply) ->
                       tld_extract (Citation.url c) = None)
  /\ ((forall url, tld_extract url <> None) ->
      generate_geoprovenance_report urlparse tld_extract reply now
        article_title lang <> None).
Proof.
  assert (Hraise :
    generate_geoprovenance_report urlparse tld_extract reply now
      article_title lang = None
    <-> extract_citations_from_article urlparse reply <> []
        /\ forall c, In c (extract_citations_from_article urlparse reply) ->
                     tld_extract (Citation.url c) = None).
  { unfold generate_geoprovenance_report.
    destruct (extract_citations_from_article urlparse reply) as [|c0 cs] eqn:E.
    - split; [discriminate|]. intros [H _]. now destruct H.
    - rewrite compile_raises_iff, analyze_nil_iff. split.
      + intros H. split; [discriminate|]. intros c Hc. apply H.
        now apply in_map.
      + intros [_ H] url Hu. apply in_map_iff in Hu as (c & <- & Hc). auto. }
  split; [apply generate_empty|]. split; [|split; [exact Hraise|]].
  - intros c Hc Hd.
    assert (Hg : (exists r,
                    generate_geoprovenance_report urlparse tld_extract reply
                      now article_title lang = Some r)
                 \/ generate_geoprovenance_report urlparse tld_extract reply
                      now article_title lang = None)
      by (destruct (generate_geoprovenance_report urlparse tld_extract reply
                      now article_title lang); eauto).
    destruct Hg as [[r Hg]|Hg].
    + exists r. split; [exact Hg|].
      apply generate_nonempty in Hg; [|intros He; rewrite He in Hc; destruct Hc].
      eapply compile_is_success; eauto.
    + apply Hraise in Hg as [_ Hall]. specialize (Hall c Hc).
      unfold decomposes in Hd. rewrite Hall in Hd. discriminate.
  - intros Htotal Hg. apply Hraise in Hg as [Hne Hall].
    destruct (extract_citations_from_article urlparse reply) as [|c cs];
      [now apply Hne|].
    exact (Htotal _ (Hall c (or_introl eq_refl))).
Qed.

(** X9.  A successful report echoes the article title and the clock's
    reading and holds the extracted citations, which have distinct URLs;
    [total_citations] is their number, and [unique_domains] lies between
    1 and that number. *)
Theorem successful_report_fields
  (urlparse : string -> option ParseResult)
  (tld_extract : string -> option ExtractResult)
  (reply : api_reply) (now article_title lang : string) (r : report) :
  generate_geoprovenance_report urlparse tld_extract reply now
    article_title lang = Some r ->
  is_success r = true ->
  Py.get "article_title" r = Some (Str article_title)
  /\ Py.get "analysis_timestamp" r = Some (Str now)
  /\ Py.get "citations" r
     = Some (Citations (extract_citations_from_article urlparse reply))
  /\ NoDup (map Citation.url (extract_citations_from_article urlparse reply))
  /\ exists total unique,
      Py.get "total_citations" r = Some (Int total)
      /\ Py.get "unique_domains" r = Some (Int unique)
      /\ total = List.length (extract_citations_from_article urlparse reply)
      /\ 1 <= unique /\ unique <= total.
Proof.
  intros Hg Hs. destruct (generate_success _ _ _ _ _ _ _ Hg Hs) as [Hne Hc].
  destruct (compile_more _ _ _ _ _ Hc) as (Ht & Hcit & Hnow).
  apply compile_fields in Hc as (Hrows & _ & Htot & Hu & _).
  split; [exact Ht|]. split; [exact Hnow|]. split; [exact Hcit|]. split.
  - destruct reply as [| | |w]; simpl; try constructor.
    rewrite parse_citations_eq, values_of_cited, map_map. simpl.
    rewrite map_id. apply keep_first_nodup.
  - do 2 eexists. split; [exact Htot|]. split; [exact Hu|].
    split; [reflexivity|]. split.
    + destruct (analyze_url_geoprovenance tld_extract
                  (map Citation.url
                     (extract_citations_from_article urlparse reply)))
        as [|row rows] eqn:E; [now destruct Hrows|].
      apply nunique_pos with (x := DomainInfo.domain row). simpl. now left.
    + etransitivity; [apply nunique_le|]. rewrite length_map.
      apply rows_le_citations.
Qed.

Lemma successful_report_fields_witness :
  exists r,
    generate_geoprovenance_report std_urlparse psl_extract
      (Wikitext links_wikitext) "2024-01-01T00:00:00" "Links" "en" = Some r
    /\ is_success r = true
    /\ Py.get "article_title" r = Some (Str "Links")
    /\ Py.get "analysis_timestamp" r = Some (Str "2024-01-01T00:00:00")
    /\ Py.get "citations" r
       = Some (Citations (extract_citations_from_article std_urlparse
                            (Wikitext links_wikitext)))
    /\ NoDup (map Citation.url
                (extract_citations_from_article std_urlparse
                   (Wikitext links_wikitext)))
    /\ exists total unique,
        Py.get "total_citations" r = Some (Int total)
        /\ Py.get "unique_domains" r = Some (Int unique)
        /\ total = List.length (extract_citations_from_article std_urlparse
                                  (Wikitext links_wikitext))
        /\ 1 <= unique /\ unique <= total.
Proof.
  eexists. split; [vm_compute; reflexivity|]. split; [reflexivity|].
  apply (successful_report_fields std_urlparse psl_extract
           (Wikitext links_wikitext) "2024-01-01T00:00:00" "Links" "en");
    vm_compute; reflexivity.
Defined.

(** X10.  In a successful report the suffix counts add up to the number
    of cited URLs that decompose, which is at least 1 and at most
    [total_citations]; when every cited URL decomposes they add up to
    [total_citations]. *)
Theorem suffix_counts_cover_classified
  (urlparse : string -> option ParseResult)
  (tld_extract : string -> option ExtractResult)
  (reply : api_reply) (now article_title lang : string) (r : report) :
  generate_geoprovenance_report urlparse tld_extract reply now
    article_title lang = Some r ->
  is_success r = true ->
  exists total tlds,
    Py.get "total_citations" r = Some (Int total)
    /\ Py.get "tld_distribution" r = Some (Counts tlds)
    /\ list_sum (map snd tlds)
       = List.length
           (filter (decomposes tld_extract)
              (map Citation.url (extract_citations_from_article urlparse reply)))
    /\ 1 <= list_sum (map snd tlds)
    /\ list_sum (map snd tlds) <= total
    /\ ((forall c, In c (extract_citations_from_article urlparse reply) ->
                   decomposes tld_extract (Citation.url c) = true) ->
        list_sum (map snd tlds) = total).
Proof.
  intros Hg Hs. destruct (generate_success _ _ _ _ _ _ _ Hg Hs) as [Hne Hc].
  apply compile_fields in Hc as (Hrows & _ & Htot & _ & _ & Ht & _).
  do 2 eexists. split; [exact Htot|]. split; [exact Ht|].
  rewrite value_counts_sum. unfold Pd.notna_sum.
  rewrite <- (map_map DomainInfo.tld Some), dropna_some, length_map.
  rewrite analyze_eq in *. rewrite classified_length.
  split; [reflexivity|]. split; [|split].
  - rewrite <- classified_length.
    destruct (flat_map (classify tld_extract)
                (map Citation.url
                   (extract_citations_from_article urlparse reply)));
      [now destruct Hrows|simpl; lia].
  - etransitivity; [apply filter_length_le|]. now rewrite length_map.
  - intros Hall. rewrite <- (length_map Citation.url). f_equal.
    apply forallb_filter_id, forallb_forall. intros u Hu.
    apply in_map_iff in Hu as (c & <- & Hc). auto.
Qed.

Lemma suffix_counts_witness :
  exists r,
    generate_geoprovenance_report std_urlparse flaky_extract
      (Wikitext links_wikitext) "2024-01-01T00:00:00" "Links" "en" = Some r
    /\ is_success r = true
    /\ exists total tlds,
        Py.get "total_citations" r = Some (Int total)
        /\ Py.get "tld_distribution" r = Some (Counts tlds)
        /\ list_sum (map snd tlds)
           = List.length
               (filter (decomposes flaky_extract)
                  (map Citation.url
                     (extract_citations_from_article std_urlparse
                        (Wikitext links_wikitext))))
        /\ 1 <= list_sum (map snd tlds)
        /\ list_sum (map snd tlds) <= total
        /\ ((forall c,
                In c (extract_citations_from_article std_urlparse
                        (Wikitext links_wikitext)) ->
                decomposes flaky_extract (Citation.url c) = true) ->
            list_sum (map snd tlds) = total).
Proof.
  eexists. split; [vm_compute; reflexivity|]. split; [reflexivity|].
  apply (suffix_counts_cover_classified std_urlparse flaky_extract
           (Wikitext links_wikitext) "2024-01-01T00:00:00" "Links" "en");
    vm_compute; reflexivity.
Defined.

(** X11.  In a successful report the country counts and the suffix counts
    are frequency tables of their columns: each value present in the
    column is listed once with the number of its occurrences, no count is
    0, and the counts do not increase along the table, so its first three
    entries are three most frequent values. *)
Theorem distributions_are_frequency_tables
  (urlparse : string -> option ParseResult)
  (tld_extract : string -> option ExtractResult)
  (reply : api_reply) (now article_title lang : string) (r : report) :
  generate_geoprovenance_report urlparse tld_extract reply now
    article_title lang = Some r ->
  is_success r = true ->
  let rows := analyze_url_geoprovenance tld_extract
                (map Citation.url
                   (extract_citations_from_article urlparse reply)) in
  exists countries tlds,
    Py.get "country_distribution" r = Some (Counts countries)
    /\ Py.get "tld_distribution" r = Some (Counts tlds)
    /\ frequency_table (map DomainInfo.country_from_tld rows) countries
    /\ frequency_table (map (fun row => Some (DomainInfo.tld row)) rows) tlds.
Proof.
  intros Hg Hs rows. destruct (generate_success _ _ _ _ _ _ _ Hg Hs) as [_ Hc].
  apply compile_fields in Hc as (_ & _ & _ & _ & Hd & Ht & _).
  do 2 eexists. split; [exact Hd|]. split; [exact Ht|].
  split; apply value_counts_table.
Qed.

Lemma frequency_tables_witness :
  exists r,
    generate_geoprovenance_report std_urlparse psl_extract
      (Wikitext links_wikitext) "2024-01-01T00:00:00" "Links" "en" = Some r
    /\ is_success r = true
    /\ let rows := analyze_url_geoprovenance psl_extract
                     (map Citation.url
                        (extract_citations_from_article std_urlparse
                           (Wikitext links_wikitext))) in
       exists countries tlds,
         Py.get "country_distribution" r = Some (Counts countries)
         /\ Py.get "tld_distribution" r = Some (Counts tlds)
         /\ frequency_table (map DomainInfo.country_from_tld rows) countries
         /\ frequency_table (map (fun row => Some (DomainInfo.tld row)) rows)
              tlds.
Proof.
  eexists. split; [vm_compute; reflexivity|]. split; [reflexivity|].
  apply (distributions_are_frequency_tables std_urlparse psl_extract
           (Wikitext links_wikitext) "2024-01-01T00:00:00" "Links" "en");
    vm_compute; reflexivity.
Defined.

(** ** The driver *)

Section DriverLemmas.

Variable urlparse : string -> option ParseResult.
Variable tld_extract : string -> option ExtractResult.

Local Abbreviation report_of := (visit_report urlparse tld_extract).
Local Abbreviation step := (visit_step urlparse tld_extract).
Local Abbreviation loop := (main_loop urlparse tld_extract).

Lemma main_loop_snoc (vs : list visit) (v : visit) :
  forall st, loop (vs ++ [v]) st = step v (loop vs st).
Proof. induction vs as [|w vs IH]; intros st; simpl; [reflexivity|apply IH]. Qed.

Lemma step_results (v : visit) (st : list (string * report) * list printed) :
  fst (step v st)
  = match report_of v with
    | Some r => Dict.set (v_article v) r (fst st)
    | None => fst st
    end.
Proof.
  destruct st as [results out]. unfold visit_step.
  destruct (report_of v) as [r|]; [|reflexivity].
  destruct (is_success r); [|reflexivity].
  now destruct (print_summary (v_article v) r).
Qed.



Lemma loop_keys (vs : list visit) :
  Py.keys (fst (loop vs ([], [])))
  = keep_first (map v_article (filter (returned urlparse tld_extract) vs)).
Proof.
  induction vs as [|v vs IH] using rev_ind; [reflexivity|].
  rewrite main_loop_snoc, step_results, filter_snoc_out. unfold returned at 1.
  destruct (report_of v) as [r|]; [|exact IH].
  rewrite set_keys, IH, map_app. simpl. rewrite keep_first_snoc.
  destruct (in_dec string_dec (v_article v) (keep_first _)) as [H|H];
    destruct (in_dec string_dec (v_article v) (map v_article _)) as [H'|H'];
    try reflexivity; exfalso; rewrite keep_first_in in H; tauto.
Qed.

Lemma loop_get (vs : list visit) (a : string) :
  Py.get a (fst (loop vs ([], []))) = last_report urlparse tld_extract a vs.
Proof.
  unfold last_report.
  induction vs as [|v vs IH] using rev_ind; [reflexivity|].
  rewrite main_loop_snoc, step_results, rev_app_distr. simpl.
  destruct (report_of v) as [r|] eqn:Hg.
  - rewrite set_get, (String.eqb_sym a).
    destruct (String.eqb (v_article v) a); simpl; [now rewrite Hg|exact IH].
  - rewrite andb_false_r. exact IH.
Qed.




End DriverLemmas.

Lemma main_fst (urlparse : string -> option ParseResult)
  (tld_extract : string -> option ExtractResult) (visits : list visit) :
  fst (main urlparse tld_extract visits)
  = fst (main_loop urlparse tld_extract visits ([], [])).
Proof.
  unfold main. now destruct (main_loop urlparse tld_extract visits ([], [])).
Qed.


(** X12.  The results the driver saves have one entry per article for
    which some visit returned a report, in the order of the first such
    visit, and the entry is the report of the last such visit.  An
    article whose every visit raised has no entry, and a visit that
    raises changes nothing for the other articles. *)
Theorem driver_saves_last_returned_report
  (urlparse : string -> option ParseResult)
  (tld_extract : string -> option ExtractResult) (visits : list visit) :
  Py.keys (fst (main urlparse tld_extract visits))
  = keep_first (map v_article
                  (filter (returned urlparse tld_extract) visits))
  /\ NoDup (Py.keys (fst (main urlparse tld_extract visits)))
  /\ (forall a, Py.get a (fst (main urlparse tld_extract visits))
                = last_report urlparse tld_extract a visits)
  /\ (forall a,
        (forall v, In v visits -> v_article v = a ->
                   visit_report urlparse tld_extract v = None) ->
        Py.get a (fst (main urlparse tld_extract visits)) = None)
  /\ (forall a r,
        Py.get a (fst (main urlparse tld_extract visits)) = Some r ->
        exists v, In v visits /\ v_article v = a
                  /\ visit_report urlparse tld_extract v = Some r).
Proof.
  rewrite main_fst.
  assert (Hlast : forall a r,
             last_report urlparse tld_extract a visits = Some r ->
             exists v, In v visits /\ v_article v = a
                       /\ visit_report urlparse tld_extract v = Some r).
  { intros a r. unfold last_report.
    destruct (find _ (rev visits)) as [v|] eqn:E; [|discriminate].
    apply find_some in E as [Hin Hp]. apply andb_true_iff in Hp as [Ha _].
    apply String.eqb_eq in Ha. apply in_rev in Hin. eauto. }
  split; [apply loop_keys|]. split; [rewrite loop_keys; apply keep_first_nodup|].
  split; [apply loop_get|]. split.
  - intros a Hall. rewrite loop_get.
    destruct (last_report urlparse tld_extract a visits) as [r|] eqn:E;
      [|reflexivity].
    apply Hlast in E as (v & Hv & Ha & Hr). rewrite (Hall v Hv Ha) in Hr.
    discriminate.
  - intros a r. rewrite loop_get. apply Hlast.
Qed.


(** A run over three visits: two reports and the error report are saved,
    and two summaries are printed. *)
Example main_sample_visits :
  Py.keys (fst (main std_urlparse psl_extract sample_visits))
  = ["Links"; "Nowhere"; "BBC"]
  /\ snd (main std_urlparse psl_extract sample_visits)
     = [ Header "Links"; CitationsLine (Int 3); DomainsLine (Int 3);
         TopCountries [("Germany", 1)];
         Header "BBC"; CitationsLine (Int 1); DomainsLine (Int 1);
         TopCountries []; Complete ].
Proof. split; vm_compute; reflexivity. Qed.

(** ** The order of an extraction result *)

Lemma filter_filter {A : Type} (f g : A -> bool) (l : list A) :
  filter f (filter g l) = filter (fun a => g a && f a) l.
Proof.
  induction l as [|a l IH]; simpl; [reflexivity|].
  destruct (g a); simpl; [|exact IH]. destruct (f a); now rewrite IH.
Qed.

Lemma keep_first_app (a b : list string) :
  keep_first (a ++ b)
  = keep_first a
    ++ filter (fun y => negb (existsb (String.eqb y) a)) (keep_first b).
Proof.
  induction a as [|x a IH]; simpl.
  - symmetry. apply forallb_filter_id, forallb_forall. reflexivity.
  - f_equal. rewrite IH, filter_app, filter_filter. f_equal.
    apply filter_ext. intros y. rewrite negb_orb. apply andb_comm.
Qed.

(** X14.  The URLs of an extraction result are ordered by pattern, not by
    place in the text: first the distinct valid URLs of the [url=]
    matches in text order, then those of the direct matches that no
    [url=] match gave, in text order. *)
Theorem extraction_lists_url_parameters_first
  (urlparse : string -> option ParseResult) (wikitext : string) :
  exists result,
    _parse_citations_from_wikitext urlparse wikitext = Some result
    /\ map Citation.url result
       = keep_first (filter (_is_valid_url urlparse)
                       (pattern_candidates url_param_pattern wikitext))
         ++ filter (fun u =>
                      negb (existsb (String.eqb u)
                              (pattern_candidates url_param_pattern wikitext)))
              (keep_first (filter (_is_valid_url urlparse)
                             (pattern_candidates direct_url_pattern wikitext))).
Proof.
  eexists. split; [apply parse_citations_eq|].
  rewrite values_of_cited, map_map. simpl. rewrite map_id.
  unfold candidates. simpl. rewrite app_nil_r, filter_app, keep_first_app.
  f_equal. apply filter_ext_in. intros u Hu.
  rewrite keep_first_in, filter_In in Hu. destruct Hu as [_ Hv]. f_equal.
  induction (pattern_candidates url_param_pattern wikitext) as [|x l IH];
    simpl; [reflexivity|].
  destruct (_is_valid_url urlparse x) eqn:Hx; simpl; [now rewrite IH|].
  destruct (String.eqb_spec u x) as [->|_]; [congruence|exact IH].
Qed.

(** A direct link placed before a citation template comes after it in the
    result. *)
Example url_parameter_comes_first :
  _parse_citations_from_wikitext std_urlparse
    "https://b.org/x {{cite web|url=http://a.com/y|title=T}}"
  = Some [Citation.Make "http://a.com/y" "a.com";
          Citation.Make "https://b.org/x" "b.org"].
Proof. vm_compute. reflexivity. Qed.
